(** * OpenHRV: telemetry routing and lifecycle of the view and its sinks

    A shallow embedding of the three Python sources of the repository:

    - [src/logger.py]        class [RedisLogger]   (module [RedisLogger]),
    - [src/view.py]          class [View], PySide2 (module [View]),
    - [src/openhrv/view.py]  class [View], PySide6 (module [OpenhrvView]).

    Python methods are functions in a small state-and-exception monad over
    the part of the world the method touches.  Calls that leave the
    process (the Redis client, Qt threads, the asyncio loop, the Bluetooth
    client, the terminal, the status bar) are recorded, in program order,
    in a trace.

    The views call into modules of the repository that are not among the
    sources: utils.py, model.py, sensor.py and the recorder of
    openhrv/logger.py.  What is needed of them is in the modules [Utils],
    [Model], [SensorClient] and [Logger], modelled from the
    specification, and marked so. *)

From Stdlib Require Import ZArith QArith String Ascii List Lia Lqa Sorted SpecFloat.
From stdpp Require Import gmap strings.
Import ListNotations.

Local Open Scope string_scope.
Local Open Scope list_scope.

(** ** Python values carried by the model's update signals *)

#[local] Set Warnings "-register-all".

(** The payloads the signals of the model carry: Python scalars, lists,
    NumPy scalars and one-dimensional NumPy arrays.  Floats are IEEE-754
    data ([spec_float]); no arithmetic is done on them here. *)
Inductive pyval : Type :=
| PyBool (b : bool)
| PyInt (n : Z)
| PyFloat (f : spec_float)
| PyStr (s : string)
| PyList (xs : list pyval)
| NpInt32 (n : Z)
| NpInt64 (n : Z)
| NpFloat64 (f : spec_float)
| NdArray (xs : list pyval).

(** Exceptions that the modelled code can meet. *)
Inductive exn : Type :=
| IndexError (msg : string)
| TypeError (msg : string)
| ConnectionError (msg : string)   (* redis.exceptions.ConnectionError *)
| RedisError (msg : string).       (* any other redis.exceptions.RedisError *)

(** [str(e)]: what [print(e)] writes. *)
Definition str_exn (e : exn) : string :=
  match e with
  | IndexError m | TypeError m | ConnectionError m | RedisError m => m
  end.

(** ** State and exception monad *)

(** A computation over a store [S] returns normally ([inl]) or raises
    ([inr]); the store survives a raise, as a Python object does. *)
Definition M (S A : Type) : Type := S -> (A + exn) * S.

Definition ret {S A} (a : A) : M S A := fun s => (inl a, s).

Definition bind {S A B} (c : M S A) (k : A -> M S B) : M S B :=
  fun s =>
    match c s with
    | (inl a, s') => k a s'
    | (inr e, s') => (inr e, s')
    end.

Definition raise {S A} (e : exn) : M S A := fun s => (inr e, s).

(** [try: body except <handles> as e: handler(e)]. *)
Definition try_except {S A} (body : M S A) (handles : exn -> bool)
    (handler : exn -> M S A) : M S A :=
  fun s =>
    match body s with
    | (inl a, s') => (inl a, s')
    | (inr e, s') => if handles e then handler e s' else (inr e, s')
    end.

Definition get {S} : M S S := fun s => (inl s, s).
Definition modify {S} (f : S -> S) : M S unit := fun s => (inl tt, f s).

Declare Scope py_scope.
Delimit Scope py_scope with py.
Notation "'let*' x ':=' c 'in' k" := (bind c (fun x => k))
  (at level 10, x name, c at level 100, k at level 200) : py_scope.
Notation "c '>>' k" := (bind c (fun _ => k))
  (at level 100, k at level 200, right associativity) : py_scope.
Local Open Scope py_scope.

(** ** Python sequence and string primitives *)

(** [xs[-1]] on a sequence; [msg] is the text of the [IndexError] that
    the type of the sequence raises when it is empty. *)
Definition getitem_last (msg : string) (xs : list pyval) : pyval + exn :=
  match last xs with
  | Some x => inl x
  | None => inr (IndexError msg)
  end.

(** ** src/logger.py *)

Module RedisLogger.

(** What [redis.Redis.publish] does when called: the message is handed
    to the server, which answers with the number of receivers, or the
    call raises. *)
Inductive outcome : Type :=
| Delivered (receivers : Z)
| Raises (e : exn).

(** One call of [self.redis.publish(key, val)]. *)
Record attempt : Type := Attempt {
  channel : string;
  payload : pyval;
  result : outcome
}.

(** The store [publish] works on.  The connection is outside the
    program: [server k] is what the [k]-th call of [redis.publish]
    (counted from 0) meets. *)
Record world : Type := World {
  server : nat -> outcome;
  calls : list attempt;      (* redis.publish calls made so far *)
  stdout : list string       (* lines printed so far *)
}.

Definition print (line : string) : M world unit :=
  modify (fun w => World (server w) (calls w) (stdout w ++ [line])).

(** [self.redis.publish(key, val)]. *)
Definition redis_publish (key : string) (val : pyval) : M world Z :=
  fun w =>
    let o := server w (length (calls w)) in
    let w' := World (server w) (calls w ++ [Attempt key val o]) (stdout w) in
    match o with
    | Delivered n => (inl n, w')
    | Raises e => (inr e, w')
    end.

(** [isinstance(val, (list, np.ndarray))]. *)
Definition is_list_or_ndarray (val : pyval) : bool :=
  match val with
  | PyList _ | NdArray _ => true
  | _ => false
  end.

(** [isinstance(val, np.int32)]. *)
Definition is_np_int32 (val : pyval) : bool :=
  match val with
  | NpInt32 _ => true
  | _ => false
  end.

(** [val[-1]], for a value that passed [is_list_or_ndarray]. *)
Definition getitem_minus1 (val : pyval) : M world pyval :=
  match val with
  | PyList xs =>
      match getitem_last "list index out of range" xs with
      | inl x => ret x
      | inr e => raise e
      end
  | NdArray xs =>
      match getitem_last "index -1 is out of bounds for axis 0 with size 0" xs with
      | inl x => ret x
      | inr e => raise e
      end
  | _ => raise (TypeError "object is not subscriptable")
  end.

(** [int(val)], for a value that passed [is_np_int32]. *)
Definition int (val : pyval) : pyval :=
  match val with
  | NpInt32 n => PyInt n
  | v => v
  end.

(** [except redis.exceptions.ConnectionError]. *)
Definition is_ConnectionError (e : exn) : bool :=
  match e with
  | ConnectionError _ => true
  | _ => false
  end.

(** [RedisLogger.publish(self, value)], lines 22-31. *)
Definition publish (value : string * pyval) : M world unit :=
  let '(key, val) := value in
  let* val := (if is_list_or_ndarray val then getitem_minus1 val else ret val) in
  let val := if is_np_int32 val then int val else val in
  try_except
    (redis_publish key val >> ret tt)
    is_ConnectionError
    (fun e => print (str_exn e)).

(** The latest scalar of a payload, in the words of the
    specification: the last element of a list or array, and a scalar
    itself. *)
Definition latest_scalar (val : pyval) : option pyval :=
  match val with
  | PyList xs | NdArray xs => last xs
  | v => Some v
  end.

(** A scalar as it is handed to the channel: a NumPy [int32] as the
    Python integer of the same value, any other scalar as it is. *)
Definition as_published (v : pyval) : pyval :=
  match v with
  | NpInt32 n => PyInt n
  | _ => v
  end.

(** A connection that is down for the first three calls of
    [redis.publish] and up from the fourth on. *)
Definition down_for_three (k : nat) : outcome :=
  if (k <? 3)%nat then Raises (ConnectionError "Connection refused.")
  else Delivered 1.

(** The calls of [redis.publish] that a run over [updates] makes
    when none of them is skipped or repeated, the first one being
    call number [k]. *)
Fixpoint attempts_from (srv : nat -> outcome) (k : nat)
    (updates : list (string * pyval)) : list attempt :=
  match updates with
  | [] => []
  | (key, val) :: rest =>
      match latest_scalar val with
      | Some v => Attempt key (as_published v) (srv k) :: attempts_from srv (S k) rest
      | None => []
      end
  end.

(** Did the call hand the message to the channel? *)
Definition delivered (a : attempt) : bool :=
  match result a with
  | Delivered _ => true
  | Raises _ => false
  end.

(** The slot called once per update, in the order of the updates; the
    run stops at the first call that raises. *)
Fixpoint publish_all (updates : list (string * pyval)) : M world unit :=
  match updates with
  | [] => ret tt
  | u :: rest => publish u >> publish_all rest
  end.

End RedisLogger.

(** ** Python string primitives used by the views *)

(** [s.split(sep)] for a one-character separator: every occurrence of
    [sep] cuts, so the result has one more piece than [s] has
    separators and is never empty. *)
Fixpoint split (sep : ascii) (s : string) : list string :=
  match s with
  | EmptyString => [EmptyString]
  | String c rest =>
      if Ascii.eqb c sep then EmptyString :: split sep rest
      else match split sep rest with
           | piece :: pieces => String c piece :: pieces
           | [] => [String c EmptyString]
           end
  end.

(** [sep.join(pieces)] for a one-character separator. *)
Fixpoint join (sep : ascii) (pieces : list string) : string :=
  match pieces with
  | [] => EmptyString
  | [piece] => piece
  | piece :: rest => piece +:+ String sep (join sep rest)
  end.

(** [pieces[1]]. *)
Definition getitem_1 (pieces : list string) : string + exn :=
  match pieces with
  | _ :: piece :: _ => inl piece
  | _ => inr (IndexError "list index out of range")
  end.

(** The characters [str.strip()] removes, among the code points below
    256: tab, line feed, vertical tab, form feed, carriage return, the
    four separators 0x1c-0x1f, the space, the next-line character 0x85
    and the no-break space 0xa0. *)
Definition is_space (c : ascii) : bool :=
  let n := nat_of_ascii c in
  ((9 <=? n) && (n <=? 13) || (28 <=? n) && (n <=? 32)
   || (n =? 133) || (n =? 160))%nat.

Fixpoint lstrip (s : string) : string :=
  match s with
  | String c rest => if is_space c then lstrip rest else s
  | EmptyString => EmptyString
  end.

Definition rstrip (s : string) : string :=
  String.rev (lstrip (String.rev s)).

(** [s.strip()]. *)
Definition strip (s : string) : string := rstrip (lstrip s).

(** ** openhrv/utils.py (not among the sources) *)

Module Utils.

Definition is_hex_digit (c : ascii) : bool :=
  let n := nat_of_ascii c in
  ((48 <=? n) && (n <=? 57)          (* 0-9 *)
   || (65 <=? n) && (n <=? 70)       (* A-F *)
   || (97 <=? n) && (n <=? 102))%nat. (* a-f *)

Definition is_separator (c : ascii) : bool :=
  Ascii.eqb c ":" || Ascii.eqb c "-".

(** [n] more groups of two hexadecimal digits, each after the
    separator [sep], and then the end of the string. *)
Fixpoint more_groups (n : nat) (sep : ascii) (s : string) : bool :=
  match n, s with
  | O, EmptyString => true
  | S n', String c (String a (String b rest)) =>
      Ascii.eqb c sep && is_hex_digit a && is_hex_digit b
      && more_groups n' sep rest
  | _, _ => false
  end.

(** The text of groups of two characters, each group after the
    separator [sep]. *)
Fixpoint tail_groups (sep : ascii) (groups : list (ascii * ascii)) : string :=
  match groups with
  | [] => EmptyString
  | (a, b) :: rest => String sep (String a (String b (tail_groups sep rest)))
  end.

(** The text of groups of two characters with [sep] between them. *)
Definition join_groups (sep : ascii) (groups : list (ascii * ascii)) : string :=
  match groups with
  | [] => EmptyString
  | (a, b) :: rest => String a (String b (tail_groups sep rest))
  end.

Definition is_hex_group (g : ascii * ascii) : bool :=
  is_hex_digit (fst g) && is_hex_digit (snd g).

(** Modelled from the spec: [valid_address] of openhrv/utils.py
    ([valid_mac] of utils.py in the PySide2 sources) is missing.  An
    identifier is well formed when it is a colon- or hyphen-separated
    hardware address of six groups of hexadecimal digits, in either
    case. *)
Definition valid_address (address : string) : bool :=
  match address with
  | String a (String b (String sep rest)) =>
      is_hex_digit a && is_hex_digit b && is_separator sep
      && more_groups 5 sep (String sep rest)
  | _ => false
  end.

Definition valid_mac (mac : string) : bool := valid_address mac.

(** The part of the file system that a destination path depends on:
    the directories that exist, and the files with their rows. *)
Record filesystem : Type := Filesystem {
  dirs : gset string;
  files : gmap string (list string)
}.

(** The parent directory of a path: the path up to its last slash,
    that slash left out. *)
Fixpoint parent (path : string) : string :=
  match path with
  | EmptyString => EmptyString
  | String c rest =>
      if existsb (Ascii.eqb "/") (list_ascii_of_string rest)
      then String c (parent rest)
      else EmptyString
  end.

Definition exists_ (fs : filesystem) (path : string) : bool :=
  bool_decide (is_Some (files fs !! path)) || bool_decide (path ∈ dirs fs).

(** Modelled from the spec: [valid_path] of openhrv/utils.py is
    missing.  A destination is valid when its parent directory exists
    and the target does not exist already. *)
Definition valid_path (fs : filesystem) (path : string) : bool :=
  bool_decide (parent path ∈ dirs fs) && negb (exists_ fs path).

End Utils.

(** ** openhrv/model.py (not among the sources) *)

Module Model.

(** The clamp of the specification, case by case. *)
Definition clamp (x MIN MAX : Z) : Z :=
  if (x <? MIN)%Z then MIN else if (MAX <? x)%Z then MAX else x.

(** The HRV target of the model, and what the model has emitted on
    [hrv_target_update]. *)
Record t : Type := Make {
  hrv_target : Z;
  hrv_target_update : list Z
}.

(** Modelled from the spec: [Model.update_hrv_target]
    ([Model.set_hrv_target] in the PySide2 sources) is missing.  The
    value is clamped into the declared bounds on write, stored, and
    the subscribers of the field are notified with the new value. *)
Definition update_hrv_target (MIN MAX : Z) (value : Z) (m : t) : t :=
  let v := clamp value MIN MAX in
  Make v (hrv_target_update m ++ [v]).

End Model.

(** ** Traces *)

(** What the views do to the world outside them, in program order. *)
Inductive thread : Type :=
| scanner_thread | sensor_thread | redis_publisher_thread
| redis_logger_thread | logger_thread.

Inductive coroutine : Type :=
| sensor_stop                              (* self.sensor.stop() *)
| sensor_reconnect_internal (mac : string). (* self.sensor.reconnect_internal(mac) *)

Record QBluetoothDeviceInfo : Type := DeviceInfo {
  device_name : string;
  device_address : string;
  device_uuid : string
}.

Inductive event : Type :=
| Print (line : string)                        (* print(line) *)
| ShowMessage (status : string)                (* statusbar.showMessage(status, 0) *)
| ThreadQuit (t : thread)                      (* t.quit() *)
| ThreadWait (t : thread)                      (* t.wait() *)
| RunCoroutineThreadsafe (c : coroutine)       (* asyncio.run_coroutine_threadsafe(c, self.sensor.loop) *)
| ConnectClient (args : list QBluetoothDeviceInfo) (* self.sensor.connect_client, called with args unpacked *)
| DisconnectFromDevice                         (* the connection to the sensor is torn down *)
| EmitStartRecording (path : string).          (* self.signals.start_recording.emit(path) *)

#[global] Instance thread_eq_dec : EqDecision thread.
Proof. solve_decision. Defined.
#[global] Instance coroutine_eq_dec : EqDecision coroutine.
Proof. solve_decision. Defined.
#[global] Instance QBluetoothDeviceInfo_eq_dec : EqDecision QBluetoothDeviceInfo.
Proof. solve_decision. Defined.
#[global] Instance event_eq_dec : EqDecision event.
Proof. solve_decision. Defined.

(** The position of the first occurrence of an event in a trace. *)
Fixpoint position (e : event) (tr : list event) : option nat :=
  match tr with
  | [] => None
  | e' :: rest => if decide (e = e') then Some 0%nat else S <$> position e rest
  end.

(** Both events occur in the trace, and [a] first occurs before [b]
    does. *)
Definition before (a b : event) (tr : list event) : bool :=
  match position a tr, position b tr with
  | Some i, Some j => (i <? j)%nat
  | _, _ => false
  end.

(** Does the event occur in the trace? *)
Definition occurs (e : event) (tr : list event) : bool :=
  bool_decide (is_Some (position e tr)).

(** The order of shutdown of the sensor's thread that the specification
    asks for: the loop inside the thread is asked, through
    [run_coroutine_threadsafe], to stop; after that the thread is told
    to quit; after that it is joined. *)
Definition cancel_quit_join (tr : list event) : Prop :=
  before (RunCoroutineThreadsafe sensor_stop) (ThreadQuit sensor_thread) tr = true
  /\ before (ThreadQuit sensor_thread) (ThreadWait sensor_thread) tr = true.

(** The order of src/view.py: the thread is told to quit; after that
    the loop is asked to stop; after that the thread is joined. *)
Definition quit_cancel_join (tr : list event) : Prop :=
  before (ThreadQuit sensor_thread) (RunCoroutineThreadsafe sensor_stop) tr = true
  /\ before (RunCoroutineThreadsafe sensor_stop) (ThreadWait sensor_thread) tr = true.

(** ** openhrv/sensor.py and openhrv/logger.py (not among the sources) *)

Module SensorClient.

Inductive connection_state : Type :=
| Disconnected | Scanning | Connecting | Connected.

(** Is there a connection to tear down? *)
Definition active (s : connection_state) : bool :=
  match s with
  | Connecting | Connected => true
  | Disconnected | Scanning => false
  end.

(** Modelled from the spec: [SensorClient.disconnect_client] is
    missing.  It tears down the active connection if there is one,
    which leaves the client [Disconnected] and reports one status
    text; with no active connection it does nothing.  The result is
    the new state, the effect on the connection and the status texts
    emitted on [status_update]. *)
Definition disconnect_client (s : connection_state)
    : connection_state * list event * list string :=
  if active s then (Disconnected, [DisconnectFromDevice], ["Disconnected from sensor."])
  else (s, [], []).

End SensorClient.

Module Logger.

(** The recorder: the destination it writes to while it records. *)
Record t : Type := Make { destination : option string }.

(** Modelled from the spec: [Logger.start_recording] is missing.  The
    slot opens the destination, which creates the file or truncates
    an existing one, and begins to record into it. *)
Definition start_recording (path : string) (lg : t) (fs : Utils.filesystem)
    : t * Utils.filesystem :=
  (Make (Some path),
   Utils.Filesystem (Utils.dirs fs) (<[path := []]> (Utils.files fs))).

End Logger.

(** ** Qt's QSlider *)

Module QSlider.

(** Minimum, maximum and value of a slider, all C [int]s. *)
Record t : Type := Make { minimum : Z; maximum : Z; value : Z }.

Definition INT_MIN : Z := - 2 ^ 31.
Definition INT_MAX : Z := 2 ^ 31 - 1.
Definition is_int (x : Z) : Prop := (INT_MIN <= x <= INT_MAX)%Z.

(** [QSlider(Qt.Horizontal)]: range 0..99, value 0. *)
Definition new : t := Make 0 99 0.

(** [QAbstractSliderPrivate::bound]:
    [qMax(minimum, qMin(maximum, value))]. *)
Definition bound (s : t) (v : Z) : Z :=
  Z.max (minimum s) (Z.min (maximum s) v).

(** [setValue(v)]: the value is bound to the range; when that changes
    the slider, [valueChanged] is emitted with the new value, and the
    slider is left alone otherwise. *)
Definition setValue (v : Z) (s : t) : t * option Z :=
  let v' := bound s v in
  if (v' =? value s)%Z then (s, None)
  else (Make (minimum s) (maximum s) v', Some v').

(** [setSliderPosition(v)], with tracking enabled (the default): the
    position is bound and the value follows it. *)
Definition setSliderPosition (v : Z) (s : t) : t * option Z := setValue v s.

(** [setRange(min, max)]: the maximum is never below the minimum, and
    the value is bound to the new range. *)
Definition setRange (min max : Z) (s : t) : t * option Z :=
  setValue (value s) (Make min (Z.max min max) (value s)).

End QSlider.

(** ** src/view.py *)

Module View.

(** The part of the window the modelled methods read, and the trace
    of what they do. *)
Record world : Type := World {
  mac_menu : string;          (* self.mac_menu.currentText() *)
  trace : list event
}.

Definition emit (e : event) : M world unit :=
  modify (fun w => World (mac_menu w) (trace w ++ [e])).

(** [View.closeEvent], lines 217-231. *)
Definition closeEvent : M world unit :=
  emit (Print "Closing threads...") >>
  emit (ThreadQuit scanner_thread) >>
  emit (ThreadWait scanner_thread) >>
  emit (ThreadQuit sensor_thread) >>
  emit (RunCoroutineThreadsafe sensor_stop) >>
  emit (ThreadWait sensor_thread) >>
  emit (ThreadQuit redis_publisher_thread) >>
  emit (ThreadWait redis_publisher_thread) >>
  emit (ThreadQuit redis_logger_thread) >>
  emit (ThreadWait redis_logger_thread).

(** [View.connect_sensor], lines 233-239. *)
Definition connect_sensor : M world unit :=
  let* w := get in
  let mac := mac_menu w in
  if negb (Utils.valid_mac mac) then
    emit (Print "Invalid MAC.")
  else
    emit (RunCoroutineThreadsafe (sensor_reconnect_internal mac)).

End View.

(** ** src/openhrv/view.py *)

Module OpenhrvView.

Section WithConfig.

(** [MIN_HRV_TARGET] and [MAX_HRV_TARGET] of openhrv/config.py and
    [get_sensor_address] of openhrv/utils.py, which are not among
    the sources. *)
Variables MIN_HRV_TARGET MAX_HRV_TARGET : Z.
Variable get_sensor_address : QBluetoothDeviceInfo -> string.

Record world : Type := World {
  address_menu : string;                 (* self.address_menu.currentText() *)
  sensors : list QBluetoothDeviceInfo;   (* self.model.sensors *)
  sensor : SensorClient.connection_state;
  logger : Logger.t;
  fs : Utils.filesystem;
  trace : list event
}.

Definition emit (e : event) : M world unit :=
  modify (fun w => World (address_menu w) (sensors w) (sensor w)
                         (logger w) (fs w) (trace w ++ [e])).

(** [View.show_status], lines 307-310, with [print_to_terminal]
    left at its default. *)
Definition show_status (status : string) : M world unit :=
  emit (ShowMessage status) >>
  emit (Print status).

Fixpoint for_each {A} (f : A -> M world unit) (xs : list A) : M world unit :=
  match xs with
  | [] => ret tt
  | x :: rest => f x >> for_each f rest
  end.

(** [self.sensor.disconnect_client()]; the client's [status_update]
    is connected to [show_status] (line 119). *)
Definition sensor_disconnect_client : M world unit :=
  let* w := get in
  let '(s, effects, statuses) := SensorClient.disconnect_client (sensor w) in
  modify (fun w => World (address_menu w) (sensors w) s
                         (logger w) (fs w) (trace w)) >>
  for_each emit effects >>
  for_each show_status statuses.

(** [self.signals.start_recording.emit(file_path)]; the signal is
    connected to [self.logger.start_recording] (line 126). *)
Definition start_recording_emit (file_path : string) : M world unit :=
  emit (EmitStartRecording file_path) >>
  modify (fun w =>
    let '(lg, fs') := Logger.start_recording file_path (logger w) (fs w) in
    World (address_menu w) (sensors w) (sensor w) lg fs' (trace w)).

(** [View.closeEvent], lines 247-254. *)
Definition closeEvent : M world unit :=
  emit (Print "Closing threads...") >>
  sensor_disconnect_client >>
  emit (ThreadQuit logger_thread) >>
  emit (ThreadWait logger_thread).

(** [View.get_filepath], lines 256-271; [file_path] is what the file
    dialog returns, the empty string when the user cancels it. *)
Definition get_filepath (file_path : string) : M world unit :=
  if String.eqb file_path "" then ret tt
  else
    let* w := get in
    if negb (Utils.valid_path (fs w) file_path) then
      show_status "File path is invalid or exists already."
    else
      start_recording_emit file_path.

(** [View.connect_sensor], lines 273-284. *)
Definition connect_sensor : M world unit :=
  let* w := get in
  if String.eqb (address_menu w) "" then ret tt
  else
    match getitem_1 (split "," (address_menu w)) with
    | inr e => raise e
    | inl piece =>
        let address := strip piece in
        if negb (Utils.valid_address address) then
          emit (Print ("Invalid sensor address: " +:+ address +:+ "."))
        else
          let sensor :=
            List.filter (fun s => String.eqb (get_sensor_address s) address)
                        (sensors w) in
          emit (ConnectClient sensor)
    end.

(** [View.disconnect_sensor], lines 286-287. *)
Definition disconnect_sensor : M world unit := sensor_disconnect_client.

(** The target slider and the model it is wired to, lines 169-173:
    [setRange(MIN_HRV_TARGET, MAX_HRV_TARGET)], then [valueChanged]
    is connected to [model.update_hrv_target], then the slider is
    moved to the model's target. *)
Definition deliver (emitted : option Z) (m : Model.t) : Model.t :=
  match emitted with
  | Some v => Model.update_hrv_target MIN_HRV_TARGET MAX_HRV_TARGET v m
  | None => m
  end.

Definition init_hrv_target (m : Model.t) : QSlider.t * Model.t :=
  let '(s, _) := QSlider.setRange MIN_HRV_TARGET MAX_HRV_TARGET QSlider.new in
  let '(s, emitted) := QSlider.setSliderPosition (Model.hrv_target m) s in
  (s, deliver emitted m).

(** The slider is set to [x]: by the user who moves it, or by
    [setValue(x)]. *)
Definition set_hrv_target (x : Z) (sm : QSlider.t * Model.t)
    : QSlider.t * Model.t :=
  let '(s, emitted) := QSlider.setValue x (fst sm) in
  (s, deliver emitted (snd sm)).

(** Reading the target back from the model. *)
Definition read_hrv_target (sm : QSlider.t * Model.t) : Z :=
  Model.hrv_target (snd sm).

(** The slider and the model agree: the slider has the configured
    range, and its value is the target of the model. *)
Definition in_sync (sm : QSlider.t * Model.t) : Prop :=
  QSlider.minimum (fst sm) = MIN_HRV_TARGET
  /\ QSlider.maximum (fst sm) = MAX_HRV_TARGET
  /\ QSlider.value (fst sm) = Model.hrv_target (snd sm)
  /\ (MIN_HRV_TARGET <= Model.hrv_target (snd sm) <= MAX_HRV_TARGET)%Z.

End WithConfig.

End OpenhrvView.

(** ** Qt's QXYSeries and QComboBox *)

Module QXYSeries.

Section WithCoordinates.

(** The coordinates of a point, and Qt's [isValidValue], which refuses
    a point with a coordinate that is not a finite number. *)
Variable R : Type.
Variable isValidValue : R -> R -> bool.

(** The points of a series, in the order of their indices. *)
Definition t : Type := list (R * R).

(** [append(x, y)]: the point is added at the end, unless it is
    refused. *)
Definition append (x y : R) (s : t) : t :=
  if isValidValue x y then s ++ [(x, y)] else s.

(** [replace(index, x, y)] for an index of the series: the point at
    [index] is replaced, unless the new point is refused.  Qt does not
    define the call for an index outside the series. *)
Definition replace (index : nat) (x y : R) (s : t) : t :=
  if isValidValue x y then <[index := (x, y)]> s else s.

End WithCoordinates.

End QXYSeries.

Module QComboBox.

(** The entries of a combo box and the index of the current one, -1
    when there is none. *)
Record t : Type := Make { items : list string; currentIndex : Z }.

(** [count()]. *)
Definition count (cb : t) : nat := length (items cb).

(** [currentText()]: the current entry, the empty string when there is
    none. *)
Definition currentText (cb : t) : string :=
  if (currentIndex cb <? 0)%Z then ""
  else nth (Z.to_nat (currentIndex cb)) (items cb) "".

(** [clear()]: no entry is left, and none is current. *)
Definition clear (cb : t) : t := Make [] (-1).

(** [addItems(texts)]: the texts are appended; when the box was empty
    and gets an entry, the first one becomes current. *)
Definition addItems (texts : list string) (cb : t) : t :=
  Make (items cb ++ texts)
       (match items cb, texts with
        | [], _ :: _ => 0
        | _, _ => currentIndex cb
        end).

(** [setCurrentIndex(index)]: an index that is not one of an entry
    leaves no entry current. *)
Definition setCurrentIndex (index : Z) (cb : t) : t :=
  Make (items cb)
       (if ((0 <=? index) && (index <? Z.of_nat (count cb)))%Z then index else -1).

End QComboBox.

(** ** src/openhrv/view.py: the plots and the address menu *)

Module XYSeriesWidget.

Section WithCoordinates.

Variable R : Type.
Variable isValidValue : R -> R -> bool.

(** [enumerate(pairs)]. *)
Definition enumerate {A} (l : list A) : list (nat * A) :=
  combine (seq 0 (length l)) l.

(** [XYSeriesWidget._instantiate_series], lines 81-83; [combine] is
    Python's [zip], which stops at the end of the shorter sequence. *)
Definition _instantiate_series (x_values y_values : list R)
    (time_series : QXYSeries.t R) : QXYSeries.t R :=
  fold_left (fun s p => QXYSeries.append R isValidValue (fst p) (snd p) s)
            (combine x_values y_values) time_series.

(** [XYSeriesWidget.update_series], lines 85-87. *)
Definition update_series (x_values y_values : list R)
    (time_series : QXYSeries.t R) : QXYSeries.t R :=
  fold_left (fun s ip =>
               QXYSeries.replace R isValidValue (fst ip) (fst (snd ip)) (snd (snd ip)) s)
            (enumerate (combine x_values y_values)) time_series.

(** The series of a new widget, lines 61-67: [QSplineSeries()] is
    empty, and [_instantiate_series] fills it. *)
Definition new (x_values y_values : list R) : QXYSeries.t R :=
  _instantiate_series x_values y_values [].

(** Are all the points of the two sequences accepted by Qt? *)
Definition all_valid (x_values y_values : list R) : bool :=
  forallb (fun p => isValidValue (fst p) (snd p)) (combine x_values y_values).

End WithCoordinates.

End XYSeriesWidget.

Module AddressMenu.

(** [View.list_addresses], lines 295-297, on the address menu. *)
Definition list_addresses (addresses : list string) (menu : QComboBox.t)
    : QComboBox.t :=
  QComboBox.addItems addresses (QComboBox.clear menu).

(** The window [w] with [menu] as its address menu. *)
Definition show (menu : QComboBox.t) (w : OpenhrvView.world) : OpenhrvView.world :=
  OpenhrvView.World (QComboBox.currentText menu) (OpenhrvView.sensors w)
    (OpenhrvView.sensor w) (OpenhrvView.logger w) (OpenhrvView.fs w)
    (OpenhrvView.trace w).

(** [View.list_macs] of src/view.py, lines 247-249, on the MAC menu. *)
Definition list_macs (macs : list string) (menu : QComboBox.t) : QComboBox.t :=
  QComboBox.addItems macs (QComboBox.clear menu).

(** The window [w] of src/view.py with [menu] as its MAC menu. *)
Definition show_macs (menu : QComboBox.t) (w : View.world) : View.world :=
  View.World (QComboBox.currentText menu) (View.trace w).

End AddressMenu.

(** ** Qt's QValueAxis *)

Module QValueAxis.

(** The range of an axis. *)
Record t : Type := Make { min : Q; max : Q }.

(** [QValueAxis()]: the range is 0..0. *)
Definition new : t := Make 0 0.

(** [setRange(min, max)]: a range whose minimum is above its maximum
    is ignored. *)
Definition setRange (lo hi : Q) (axis : t) : t :=
  if Qle_bool lo hi then Make lo hi else axis.


End QValueAxis.

(** ** src/openhrv/view.py: the plot of the inter-beat intervals *)

Module IbisPlot.

Section WithConfig.

(** [IBI_HISTORY_DURATION], [MIN_PLOT_IBI] and [MAX_PLOT_IBI] of
    openhrv/config.py, which is not among the sources. *)
Variables IBI_HISTORY_DURATION MIN_PLOT_IBI MAX_PLOT_IBI : Q.

(** Seconds and milliseconds are taken as rationals; a rational is a
    finite number, so Qt accepts every point. *)
Definition isValidValue (x y : Q) : bool := true.

(** The series and the axes of an [XYSeriesWidget]. *)
Record widget : Type := Widget {
  time_series : QXYSeries.t Q;
  x_axis : QValueAxis.t;
  y_axis : QValueAxis.t
}.

(** [XYSeriesWidget.__init__], lines 48-79. *)
Definition XYSeriesWidget_init (x_values y_values : list Q) : widget :=
  Widget (XYSeriesWidget.new Q isValidValue x_values y_values)
         QValueAxis.new QValueAxis.new.

(** [View.__init__], lines 135-146: the plot is built from the two
    buffers of the model, [model.ibis_seconds] and [model.ibis_buffer],
    and its axes are given their ranges. *)
Definition ibis_widget (ibis_seconds ibis_buffer : list Q) : widget :=
  let w := XYSeriesWidget_init ibis_seconds ibis_buffer in
  Widget (time_series w)
         (QValueAxis.setRange (- IBI_HISTORY_DURATION) 0 (x_axis w))
         (QValueAxis.setRange MIN_PLOT_IBI MAX_PLOT_IBI (y_axis w)).

(** [View.plot_ibis], lines 289-290: [ibis.value] is the pair of the
    two buffers of the model. *)
Definition plot_ibis (value : list Q * list Q) (w : widget) : widget :=
  Widget (XYSeriesWidget.update_series Q isValidValue (fst value) (snd value)
            (time_series w))
         (x_axis w) (y_axis w).


End WithConfig.





End IbisPlot.

(** ** The threads of the windows *)

(** The threads that [View.__init__] of src/view.py starts, lines
    212-215. *)
Definition View_started_threads : list thread :=
  [scanner_thread; sensor_thread; redis_publisher_thread; redis_logger_thread].

(** The thread that [View.__init__] of src/openhrv/view.py starts, line
    245. *)
Definition OpenhrvView_started_threads : list thread := [logger_thread].

(** ** What a run of the publisher prints *)

(** The lines that the handler of [RedisLogger.publish] prints for the
    calls of [redis.publish] that raised. *)
Definition error_lines (attempts : list RedisLogger.attempt) : list string :=
  flat_map (fun a => match RedisLogger.result a with
                     | RedisLogger.Raises e => [str_exn e]
                     | RedisLogger.Delivered _ => []
                     end) attempts.

(** Is the event the emission of [start_recording]? *)
Definition is_start_recording (e : event) : bool :=
  match e with
  | EmitStartRecording _ => true
  | _ => false
  end.

(** * Properties *)

(** ** The monad *)

Lemma bind_ret_l {S A B} (a : A) (k : A -> M S B) (s : S) :
  bind (ret a) k s = k a s.
Proof. reflexivity. Qed.

Lemma bind_ret_r {S A} (c : M S A) (s : S) : bind c ret s = c s.
Proof. unfold bind, ret. now destruct (c s) as [[a | e] s']. Qed.

Lemma bind_assoc {S A B C} (c : M S A) (k : A -> M S B) (h : B -> M S C) (s : S) :
  bind (bind c k) h s = bind c (fun a => bind (k a) h) s.
Proof. unfold bind. now destruct (c s) as [[a | e] s']. Qed.

Lemma bind_raise {S A B} (e : exn) (k : A -> M S B) (s : S) :
  bind (raise e) k s = (inr e, s).
Proof. reflexivity. Qed.

(** A handler is not entered when the body returns, nor for an
    exception it does not handle. *)
Lemma try_except_passes {S A} (body : M S A) handles handler (s : S) e s' :
  body s = (inr e, s') -> handles e = false ->
  try_except body handles handler s = (inr e, s').
Proof. intros H He. unfold try_except. now rewrite H, He. Qed.

Lemma bind_inl {S A B} (c : M S A) (k : A -> M S B) s a s' :
  c s = (inl a, s') -> bind c k s = k a s'.
Proof. intros H. unfold bind. now rewrite H. Qed.

Lemma bind_inr {S A B} (c : M S A) (k : A -> M S B) s e s' :
  c s = (inr e, s') -> bind c k s = (inr e, s').
Proof. intros H. unfold bind. now rewrite H. Qed.

(** ** Python primitives *)

Lemma split_not_empty (sep : ascii) (s : string) : split sep s <> [].
Proof.
  destruct s as [| c s]; cbn; [discriminate |].
  destruct (Ascii.eqb c sep); [discriminate |].
  destruct (split sep s); discriminate.
Qed.

(** Joining the pieces of a split with the separator gives the string
    back. *)
Lemma join_split (sep : ascii) (s : string) : join sep (split sep s) = s.
Proof.
  induction s as [| c s IH]; [reflexivity |]. cbn [split].
  destruct (Ascii.eqb_spec c sep) as [-> | Hne].
  - pose proof (split_not_empty sep s) as Hs.
    destruct (split sep s) as [| piece pieces]; [contradiction |].
    cbn [join]. cbn. now rewrite <- IH.
  - pose proof (split_not_empty sep s) as Hs.
    destruct (split sep s) as [| piece pieces]; [contradiction |].
    rewrite <- IH. destruct pieces; reflexivity.
Qed.

(** No piece of a split holds the separator. *)
Lemma split_pieces_free (sep : ascii) (s : string) :
  Forall (fun piece => ~ In sep (list_ascii_of_string piece)) (split sep s).
Proof.
  induction s as [| c s IH]; cbn [split].
  - repeat constructor. intros [].
  - destruct (Ascii.eqb_spec c sep) as [-> | Hne].
    + constructor; [intros [] | exact IH].
    + pose proof (split_not_empty sep s) as Hs.
      destruct (split sep s) as [| piece pieces]; [contradiction |].
      apply Forall_cons in IH as [Hpiece Hpieces].
      constructor; [| exact Hpieces].
      cbn. intros [Heq | Hin]; [now apply Hne | now apply Hpiece].
Qed.

(** What [lstrip] leaves does not start with a space, and [lstrip]
    only removes spaces. *)
Lemma lstrip_head (s : string) :
  match lstrip s with
  | String c _ => is_space c = false
  | EmptyString => True
  end.
Proof.
  induction s as [| c s IH]; cbn; [exact I |].
  destruct (is_space c) eqn:Hc; [exact IH | exact Hc].
Qed.

Lemma lstrip_suffix (s : string) :
  exists spaces,
    forallb is_space spaces = true
    /\ s = string_of_list_ascii spaces +:+ lstrip s.
Proof.
  induction s as [| c s IH]; cbn.
  - now exists [].
  - destruct (is_space c) eqn:Hc.
    + destruct IH as (spaces & Hspaces & Hs). exists (c :: spaces).
      cbn. rewrite Hc, Hspaces. split; [reflexivity |].
      exact (f_equal (String c) Hs).
    + now exists [].
Qed.

(** ** The address format *)

Lemma more_groups_format (n : nat) (sep : ascii) (s : string) :
  Utils.more_groups n sep s = true <->
  exists groups,
    length groups = n
    /\ forallb Utils.is_hex_group groups = true
    /\ s = Utils.tail_groups sep groups.
Proof.
  revert s. induction n as [| n IH]; intros s.
  - split.
    + destruct s; [| discriminate]. intros _. now exists [].
    + intros (groups & Hlen & _ & ->).
      now destruct groups.
  - split.
    + destruct s as [| c [| a [| b rest]]]; cbn; try discriminate.
      intros H. apply andb_prop in H as [H Hrest].
      apply andb_prop in H as [H Hb]. apply andb_prop in H as [Hc Ha].
      apply Ascii.eqb_eq in Hc as ->.
      apply IH in Hrest as (groups & Hlen & Hhex & ->).
      exists ((a, b) :: groups). cbn. unfold Utils.is_hex_group at 1. cbn.
      rewrite Ha, Hb, Hhex, Hlen. repeat split.
    + intros (groups & Hlen & Hhex & ->).
      destruct groups as [| [a b] groups]; [discriminate |].
      cbn in Hlen, Hhex |- *. injection Hlen as Hlen.
      apply andb_prop in Hhex as [Hab Hhex].
      apply andb_prop in Hab as [Ha Hb]. cbn in Ha, Hb.
      rewrite Ascii.eqb_refl, Ha, Hb. cbn.
      apply IH. now exists groups.
Qed.

(** The addresses that [valid_address] accepts are exactly the texts
    of six groups of two hexadecimal digits, of either case, with one
    and the same separator, a colon or a hyphen, between the groups. *)
Lemma valid_address_format (address : string) :
  Utils.valid_address address = true <->
  exists sep groups,
    Utils.is_separator sep = true
    /\ length groups = 6%nat
    /\ forallb Utils.is_hex_group groups = true
    /\ address = Utils.join_groups sep groups.
Proof.
  split.
  - destruct address as [| a [| b [| sep rest]]]; cbn [Utils.valid_address];
      try discriminate.
    intros H. apply andb_prop in H as [H Hrest].
    apply andb_prop in H as [H Hsep]. apply andb_prop in H as [Ha Hb].
    apply more_groups_format in Hrest as (groups & Hlen & Hhex & Hs).
    exists sep, ((a, b) :: groups). cbn [length forallb Utils.join_groups].
    unfold Utils.is_hex_group at 1. cbn [fst snd].
    rewrite Ha, Hb, Hhex, Hlen, <- Hs. repeat split. exact Hsep.
  - intros (sep & groups & Hsep & Hlen & Hhex & ->).
    destruct groups as [| [a b] groups]; [discriminate |].
    cbn in Hlen, Hhex. injection Hlen as Hlen.
    apply andb_prop in Hhex as [Hab Hhex].
    apply andb_prop in Hab as [Ha Hb]. cbn in Ha, Hb.
    destruct groups as [| [a' b'] groups']; [discriminate |].
    cbn [Utils.join_groups Utils.tail_groups Utils.valid_address].
    rewrite Ha, Hb, Hsep. cbn [andb].
    apply more_groups_format. now exists ((a', b') :: groups').
Qed.

Example valid_address_colons : Utils.valid_address "00:22:D0:aa:bb:Cc" = true.
Proof. reflexivity. Qed.

Example valid_address_hyphens : Utils.valid_address "00-22-d0-AA-BB-cC" = true.
Proof. reflexivity. Qed.

Example valid_address_mixed_separators :
  Utils.valid_address "00:22-D0:AA:BB:CC" = false.
Proof. reflexivity. Qed.

Example valid_address_five_groups : Utils.valid_address "00:22:D0:AA:BB" = false.
Proof. reflexivity. Qed.

Example valid_address_not_hex : Utils.valid_address "00:22:D0:AA:BB:CG" = false.
Proof. reflexivity. Qed.

Example address_of_menu_entry :
  strip <$> match getitem_1 (split "," "Polar H10 8C6B1D21, 00:22:D0:AA:BB:CC") with
            | inl piece => Some piece
            | inr _ => None
            end
  = Some "00:22:D0:AA:BB:CC".
Proof. vm_compute. reflexivity. Qed.

(** ** src/logger.py: the external publisher *)

Section RedisLoggerFacts.

Import RedisLogger.

Lemma int32_conversion v :
  (if is_np_int32 v then int v else v) = as_published v.
Proof. now destruct v. Qed.

(** With a latest scalar [v], [publish] is one call of
    [redis.publish] under the handler. *)
Lemma publish_reduced key val v :
  latest_scalar val = Some v ->
  publish (key, val) =
    try_except (redis_publish key (as_published v) >> ret tt)
               is_ConnectionError (fun e => print (str_exn e)).
Proof.
  intros Hv. unfold publish.
  destruct val; simpl in Hv |- *;
    try (injection Hv as <-; reflexivity);
    unfold getitem_last; rewrite Hv; simpl;
    unfold bind, ret; simpl;
    now rewrite int32_conversion.
Qed.

Lemma redis_publish_run key v w :
  redis_publish key v w =
    (match server w (length (calls w)) with
     | Delivered n => inl n
     | Raises e => inr e
     end,
     World (server w)
           (calls w ++ [Attempt key v (server w (length (calls w)))])
           (stdout w)).
Proof. unfold redis_publish. now destruct (server w (length (calls w))). Qed.

(** One call of [publish] on a payload with a latest scalar: what it
    returns, and the world it leaves. *)
Lemma publish_run key val v w :
  latest_scalar val = Some v ->
  let o := server w (length (calls w)) in
  publish (key, val) w =
    (match o with
     | Raises e => if is_ConnectionError e then inl tt else inr e
     | Delivered _ => inl tt
     end,
     World (server w) (calls w ++ [Attempt key (as_published v) o])
           (match o with
            | Raises e =>
                if is_ConnectionError e then stdout w ++ [str_exn e] else stdout w
            | Delivered _ => stdout w
            end)).
Proof.
  intros Hv o. rewrite (publish_reduced key val v Hv).
  unfold try_except, bind. rewrite redis_publish_run. fold o.
  destruct o as [n | e]; [reflexivity |].
  destruct (is_ConnectionError e); reflexivity.
Qed.

(** C9. An update whose payload is an empty list or an empty array
    makes [publish] raise [IndexError]: [val[-1]] is evaluated before
    the [try] block is entered, so the handler for connection errors
    does not see it, nothing is printed and [redis.publish] is not
    called. *)
Theorem publish_empty_sequence_raises_IndexError :
  forall (key : string) (w : world),
    publish (key, PyList []) w
      = (inr (IndexError "list index out of range"), w)
    /\ publish (key, NdArray []) w
      = (inr (IndexError "index -1 is out of bounds for axis 0 with size 0"), w).
Proof. intros key w. split; reflexivity. Qed.

(** C4. For every update whose payload has a latest scalar,
    [publish] calls [redis.publish] exactly once, with the field name
    of the update as the channel.  For a list or an array the value
    pushed is the last element, for a scalar it is the scalar; in both
    cases the value is pushed as it is, except that a NumPy [int32] is
    pushed as the Python integer of the same value. *)
Theorem publish_channel_and_latest_value :
  forall (key : string) (val v : pyval) (w : world),
    latest_scalar val = Some v ->
    (forall xs, val = PyList xs \/ val = NdArray xs -> last xs = Some v)
    /\ (is_list_or_ndarray val = false -> v = val)
    /\ exists p,
         calls (snd (publish (key, val) w))
           = calls w ++ [Attempt key p (server w (length (calls w)))]
         /\ p = as_published v
         /\ ((forall n, v <> NpInt32 n) -> p = v)
         /\ (forall n, v = NpInt32 n -> p = PyInt n).
Proof.
  intros key val v w Hv. split; [| split].
  - intros xs [-> | ->]; exact Hv.
  - destruct val; simpl in *; congruence.
  - exists (as_published v). rewrite (publish_run key val v w Hv). simpl.
    repeat split.
    + intros Hn. destruct v; try reflexivity. now destruct (Hn n).
    + now intros n ->.
Qed.

Lemma publish_channel_and_latest_value_witness :
  latest_scalar (NdArray [NpInt32 800; NpInt32 820]) = Some (NpInt32 820)
  /\ exists p,
       calls (snd (publish ("InterBeatInterval", NdArray [NpInt32 800; NpInt32 820])
                           (World (fun _ => Delivered 1) [] [])))
         = [Attempt "InterBeatInterval" p (Delivered 1)]
       /\ p = PyInt 820.
Proof.
  split; [reflexivity |].
  destruct (publish_channel_and_latest_value "InterBeatInterval"
              (NdArray [NpInt32 800; NpInt32 820]) (NpInt32 820)
              (World (fun _ => Delivered 1) [] []) eq_refl)
    as (_ & _ & p & Hcalls & _ & _ & Hint).
  exists p. split; [exact Hcalls | exact (Hint 820%Z eq_refl)].
Defined.

(** C2. When the call of [redis.publish] for an update raises a
    connection error, [publish] returns normally: the error is caught
    and printed, the update has been tried once and is not tried
    again, and the call of [publish] for the next update, of the same
    or of another field, makes its own call of [redis.publish]. *)
Theorem publish_connection_error_is_dropped :
  forall (key : string) (val v : pyval) (msg : string) (w : world)
         (next_key : string) (next_val next_v : pyval),
    latest_scalar val = Some v ->
    server w (length (calls w)) = Raises (ConnectionError msg) ->
    latest_scalar next_val = Some next_v ->
    let r := publish (key, val) w in
    let r' := publish (next_key, next_val) (snd r) in
    fst r = inl tt
    /\ stdout (snd r) = stdout w ++ [msg]
    /\ calls (snd r)
         = calls w ++ [Attempt key (as_published v) (Raises (ConnectionError msg))]
    /\ calls (snd r')
         = calls w ++ [Attempt key (as_published v) (Raises (ConnectionError msg));
                       Attempt next_key (as_published next_v)
                               (server w (S (length (calls w))))]
    /\ (forall e, fst r' = inr e ->
           server w (S (length (calls w))) = Raises e
           /\ is_ConnectionError e = false).
Proof.
  intros key val v msg w next_key next_val next_v Hv Hsrv Hnext r r'.
  assert (Hr : r = (inl tt,
                    World (server w)
                          (calls w ++ [Attempt key (as_published v)
                                               (Raises (ConnectionError msg))])
                          (stdout w ++ [msg]))).
  { unfold r. rewrite (publish_run key val v w Hv). now rewrite Hsrv. }
  unfold r'. rewrite Hr. cbn [fst snd].
  rewrite (publish_run next_key next_val next_v _ Hnext).
  cbn [server calls stdout fst snd].
  rewrite length_app, Nat.add_1_r. cbn [length].
  split; [reflexivity |]. split; [reflexivity |]. split; [reflexivity |].
  split; [now rewrite <- app_assoc |].
  intros e. destruct (server w (S (length (calls w)))) as [n | e'];
    [discriminate |].
  destruct (is_ConnectionError e') eqn:He; [discriminate |].
  intros [= ->]. now split.
Qed.

Lemma publish_connection_error_is_dropped_witness :
  latest_scalar (PyInt 250) = Some (PyInt 250)
  /\ down_for_three 0 = Raises (ConnectionError "Connection refused.")
  /\ latest_scalar (NdArray [NpInt32 800]) = Some (NpInt32 800)
  /\ fst (publish ("hrv_target", PyInt 250) (World down_for_three [] [])) = inl tt
  /\ calls (snd (publish ("InterBeatInterval", NdArray [NpInt32 800])
                   (snd (publish ("hrv_target", PyInt 250)
                                 (World down_for_three [] [])))))
       = [Attempt "hrv_target" (PyInt 250)
                  (Raises (ConnectionError "Connection refused."));
          Attempt "InterBeatInterval" (PyInt 800)
                  (Raises (ConnectionError "Connection refused."))].
Proof.
  destruct (publish_connection_error_is_dropped
              "hrv_target" (PyInt 250) (PyInt 250) "Connection refused."
              (World down_for_three [] [])
              "InterBeatInterval" (NdArray [NpInt32 800]) (NpInt32 800)
              eq_refl eq_refl eq_refl)
    as (Hret & _ & _ & Hcalls & _).
  split; [reflexivity |]. split; [reflexivity |]. split; [reflexivity |].
  split; [exact Hret | exact Hcalls].
Defined.

(** X4. Over a whole run: when every payload has a latest scalar and
    the connection fails with connection errors only, no call of the
    slot raises, and [redis.publish] is called once per update, in
    order. *)
Lemma publish_all_best_effort (updates : list (string * pyval)) :
  forall w : world,
    Forall (fun u => is_Some (latest_scalar (snd u))) updates ->
    (forall k e, server w k = Raises e -> is_ConnectionError e = true) ->
    let r := publish_all updates w in
    fst r = inl tt
    /\ server (snd r) = server w
    /\ calls (snd r)
         = calls w ++ attempts_from (server w) (length (calls w)) updates.
Proof.
  induction updates as [| [key val] rest IH]; intros w Hall Hsrv; cbn zeta.
  - cbn. now rewrite app_nil_r.
  - inversion Hall as [| ? ? [v Hv] Hrest]; subst.
    cbn [publish_all attempts_from snd]. cbn [snd] in Hv. rewrite Hv.
    pose proof (publish_run key val v w Hv) as Hrun. cbv zeta in Hrun.
    set (o := server w (length (calls w))) in *.
    assert (Hok : match o with
                  | Raises e => if is_ConnectionError e then inl tt else inr e
                  | Delivered _ => @inl unit exn tt
                  end = inl tt).
    { destruct o as [n | e] eqn:Ho; [reflexivity |].
      now rewrite (Hsrv _ _ Ho). }
    rewrite Hok in Hrun.
    rewrite (bind_inl _ _ _ _ _ Hrun).
    match goal with |- context [publish_all rest ?w1] => set (w' := w1) end.
    destruct (IH w' Hrest) as (Hfst & Hs & Hcalls).
    { intros k e. unfold w'. cbn [server]. apply Hsrv. }
    split; [exact Hfst |]. split; [exact Hs |].
    rewrite Hcalls. unfold w'. cbn [server calls].
    rewrite length_app, Nat.add_1_r. cbn [length].
    now rewrite <- app_assoc.
Qed.

(** Three updates meet a connection that is down, the fourth one
    meets it up: no exception leaves the sink, each update is tried
    once, and only the fourth reaches the channel. *)
Example publish_three_failures_then_success :
  let r := publish_all [("hrv_target", PyInt 250);
                        ("InterBeatInterval", NdArray [NpInt32 800]);
                        ("MeanHrv", PyList [PyInt 31; PyInt 42]);
                        ("hrv_target", PyInt 300)]
                       (World down_for_three [] []) in
  fst r = inl tt
  /\ map channel (calls (snd r))
       = ["hrv_target"; "InterBeatInterval"; "MeanHrv"; "hrv_target"]
  /\ List.filter delivered (calls (snd r))
       = [Attempt "hrv_target" (PyInt 300) (Delivered 1)]
  /\ length (stdout (snd r)) = 3%nat.
Proof. cbv zeta. repeat split. Qed.

End RedisLoggerFacts.

(** ** Shutdown: src/view.py and src/openhrv/view.py *)

(** What [closeEvent] of src/view.py adds to the trace. *)
Lemma View_closeEvent_run (w : View.world) :
  View.closeEvent w =
    (inl tt,
     View.World (View.mac_menu w)
       (View.trace w ++
        [Print "Closing threads...";
         ThreadQuit scanner_thread; ThreadWait scanner_thread;
         ThreadQuit sensor_thread; RunCoroutineThreadsafe sensor_stop;
         ThreadWait sensor_thread;
         ThreadQuit redis_publisher_thread; ThreadWait redis_publisher_thread;
         ThreadQuit redis_logger_thread; ThreadWait redis_logger_thread])).
Proof.
  destruct w as [menu tr]. unfold View.closeEvent, View.emit, bind, modify.
  cbn. repeat rewrite <- app_assoc. reflexivity.
Qed.

(** What [closeEvent] of src/openhrv/view.py does: the sensor client is
    disconnected by a direct call, and then the logger thread is told
    to quit and is joined. *)
Lemma OpenhrvView_closeEvent_run (w : OpenhrvView.world) :
  OpenhrvView.closeEvent w =
    (inl tt,
     OpenhrvView.World (OpenhrvView.address_menu w) (OpenhrvView.sensors w)
       (if SensorClient.active (OpenhrvView.sensor w)
        then SensorClient.Disconnected else OpenhrvView.sensor w)
       (OpenhrvView.logger w) (OpenhrvView.fs w)
       (OpenhrvView.trace w ++
        [Print "Closing threads..."] ++
        (if SensorClient.active (OpenhrvView.sensor w)
         then [DisconnectFromDevice;
               ShowMessage "Disconnected from sensor.";
               Print "Disconnected from sensor."]
         else []) ++
        [ThreadQuit logger_thread; ThreadWait logger_thread])).
Proof.
  destruct w as [menu ss s lg fs tr].
  unfold OpenhrvView.closeEvent, OpenhrvView.sensor_disconnect_client,
    SensorClient.disconnect_client.
  destruct (SensorClient.active s) eqn:Hs;
    unfold OpenhrvView.show_status, OpenhrvView.emit, bind, modify, get;
    cbn; rewrite Hs; cbn; repeat rewrite <- app_assoc; reflexivity.
Qed.

(** C3, as stated, fails on src/view.py: from the window with an empty
    trace, [closeEvent] tells the sensor's thread to quit before it asks
    the loop inside it to stop. *)
Lemma closeEvent_quits_before_loop_is_asked :
  ~ cancel_quit_join (View.trace (snd (View.closeEvent (View.World "" [])))).
Proof. intros [H _]. vm_compute in H. discriminate H. Qed.

(** C3, amended.  In src/view.py [closeEvent] returns normally and, for
    the sensor's thread, first tells the thread to quit, then submits
    the sensor's [stop] coroutine to the sensor's loop with
    [run_coroutine_threadsafe], and only then joins the thread.  In
    src/openhrv/view.py the sensor client has no thread: [closeEvent]
    disconnects the client by a direct call, which leaves no active
    connection, and after that tells the logger thread to quit and
    joins it. *)
Theorem closeEvent_shutdown_order :
  (forall w : View.world,
     fst (View.closeEvent w) = inl tt
     /\ exists tr,
          View.trace (snd (View.closeEvent w)) = View.trace w ++ tr
          /\ quit_cancel_join tr)
  /\ (forall w : OpenhrvView.world,
        fst (OpenhrvView.closeEvent w) = inl tt
        /\ SensorClient.active (OpenhrvView.sensor (snd (OpenhrvView.closeEvent w)))
             = false
        /\ exists teardown,
             OpenhrvView.trace (snd (OpenhrvView.closeEvent w))
               = OpenhrvView.trace w ++ [Print "Closing threads..."] ++ teardown
                 ++ [ThreadQuit logger_thread; ThreadWait logger_thread]
             /\ occurs DisconnectFromDevice teardown
                  = SensorClient.active (OpenhrvView.sensor w)
             /\ occurs (ThreadQuit logger_thread) teardown = false
             /\ occurs (ThreadQuit sensor_thread) teardown = false
             /\ occurs (RunCoroutineThreadsafe sensor_stop) teardown = false).
Proof.
  split.
  - intros w. rewrite View_closeEvent_run. cbn [fst snd View.trace].
    split; [reflexivity |]. eexists. split; [reflexivity |].
    split; vm_compute; reflexivity.
  - intros w. rewrite OpenhrvView_closeEvent_run.
    cbn [fst snd OpenhrvView.trace OpenhrvView.sensor].
    split; [reflexivity |]. split.
    + destruct (OpenhrvView.sensor w); reflexivity.
    + eexists. split; [reflexivity |].
      destruct (SensorClient.active (OpenhrvView.sensor w));
        repeat split; reflexivity.
Qed.

(** ** Connecting to a sensor *)

Section ConnectSensor.

Variable get_sensor_address : QBluetoothDeviceInfo -> string.

Import OpenhrvView.

(** [connect_sensor] of src/openhrv/view.py, case by case. *)
Lemma OpenhrvView_connect_sensor_run (w : world) :
  connect_sensor get_sensor_address w =
    if String.eqb (address_menu w) "" then (inl tt, w)
    else match getitem_1 (split "," (address_menu w)) with
         | inr e => (inr e, w)
         | inl piece =>
             (inl tt,
              World (address_menu w) (sensors w) (sensor w) (logger w) (fs w)
                (trace w ++
                 [if Utils.valid_address (strip piece)
                  then ConnectClient
                         (List.filter
                            (fun s => String.eqb (get_sensor_address s) (strip piece))
                            (sensors w))
                  else Print ("Invalid sensor address: " +:+ strip piece +:+ ".")]))
         end.
Proof.
  unfold connect_sensor, bind, get.
  destruct (String.eqb (address_menu w) ""); [reflexivity |].
  destruct (getitem_1 (split "," (address_menu w))) as [piece | e];
    [| reflexivity].
  destruct (Utils.valid_address (strip piece)); reflexivity.
Qed.

(** C10. With no address selected, the text of the address menu being
    empty, [connect_sensor] of src/openhrv/view.py returns at once:
    nothing is validated, printed or shown, no connection is
    attempted, and the window is as it was. *)
Theorem connect_sensor_without_selection_is_silent :
  forall (ss : list QBluetoothDeviceInfo) (s : SensorClient.connection_state)
         (lg : Logger.t) (files : Utils.filesystem) (tr : list event),
    connect_sensor get_sensor_address (World "" ss s lg files tr)
      = (inl tt, World "" ss s lg files tr).
Proof.
  intros ss s lg files tr. rewrite OpenhrvView_connect_sensor_run.
  reflexivity.
Qed.

(** [connect_sensor] of src/view.py, case by case. *)
Lemma View_connect_sensor_run (w : View.world) :
  View.connect_sensor w =
    (inl tt,
     View.World (View.mac_menu w)
       (View.trace w ++
        [if Utils.valid_mac (View.mac_menu w)
         then RunCoroutineThreadsafe (sensor_reconnect_internal (View.mac_menu w))
         else Print "Invalid MAC."])).
Proof.
  unfold View.connect_sensor, bind, get.
  destruct (Utils.valid_mac (View.mac_menu w)); reflexivity.
Qed.

(** C5. The address is validated before anything else is done with
    it.  In src/openhrv/view.py, for a selected entry of the address
    menu whose second comma-separated field, stripped, is not a well
    formed hardware address, [connect_sensor] prints a message that
    names the address and returns: [connect_client] is not called and
    the window is otherwise unchanged.  In src/view.py, for a text of
    the menu that is not a well formed address, [connect_sensor]
    prints a message and returns: no coroutine is submitted to the
    sensor's loop. *)
Theorem connect_sensor_rejects_malformed_address :
  forall (w : world) (piece : string) (lw : View.world),
    address_menu w <> "" ->
    getitem_1 (split "," (address_menu w)) = inl piece ->
    Utils.valid_address (strip piece) = false ->
    Utils.valid_mac (View.mac_menu lw) = false ->
    connect_sensor get_sensor_address w
      = (inl tt,
         World (address_menu w) (sensors w) (sensor w) (logger w) (fs w)
           (trace w ++
            [Print ("Invalid sensor address: " +:+ strip piece +:+ ".")]))
    /\ View.connect_sensor lw
         = (inl tt,
            View.World (View.mac_menu lw)
                       (View.trace lw ++ [Print "Invalid MAC."])).
Proof.
  intros w piece lw Hsel Hpiece Hbad Hmac. split.
  - rewrite OpenhrvView_connect_sensor_run.
    apply String.eqb_neq in Hsel. rewrite Hsel, Hpiece, Hbad. reflexivity.
  - rewrite View_connect_sensor_run, Hmac. reflexivity.
Qed.

End ConnectSensor.

Lemma connect_sensor_rejects_malformed_address_witness :
  "Polar H10, 12:34:56:78:9G:AB" <> ""
  /\ getitem_1 (split "," "Polar H10, 12:34:56:78:9G:AB") = inl " 12:34:56:78:9G:AB"
  /\ Utils.valid_address (strip " 12:34:56:78:9G:AB") = false
  /\ Utils.valid_mac "123456" = false
  /\ OpenhrvView.connect_sensor device_address
       (OpenhrvView.World "Polar H10, 12:34:56:78:9G:AB" []
          SensorClient.Disconnected (Logger.Make None)
          (Utils.Filesystem ∅ ∅) [])
     = (inl tt,
        OpenhrvView.World "Polar H10, 12:34:56:78:9G:AB" []
          SensorClient.Disconnected (Logger.Make None)
          (Utils.Filesystem ∅ ∅)
          [Print "Invalid sensor address: 12:34:56:78:9G:AB."])
  /\ View.connect_sensor (View.World "123456" [])
     = (inl tt, View.World "123456" [Print "Invalid MAC."]).
Proof.
  split; [discriminate |]. split; [reflexivity |].
  split; [vm_compute; reflexivity |]. split; [reflexivity |].
  exact (connect_sensor_rejects_malformed_address device_address
           (OpenhrvView.World "Polar H10, 12:34:56:78:9G:AB" []
              SensorClient.Disconnected (Logger.Make None)
              (Utils.Filesystem ∅ ∅) [])
           " 12:34:56:78:9G:AB" (View.World "123456" [])
           ltac:(discriminate) eq_refl eq_refl eq_refl).
Defined.

(** Whatever the text of the menu is, [connect_sensor] of
    src/openhrv/view.py calls [connect_client] only with a well formed
    address, and with the sensors of the model that have it. *)
Lemma connect_client_only_for_valid_address
    (get_sensor_address : QBluetoothDeviceInfo -> string)
    (w : OpenhrvView.world) :
  exists new,
    OpenhrvView.trace (snd (OpenhrvView.connect_sensor get_sensor_address w))
      = OpenhrvView.trace w ++ new
    /\ forall args, In (ConnectClient args) new ->
         exists piece,
           getitem_1 (split "," (OpenhrvView.address_menu w)) = inl piece
           /\ Utils.valid_address (strip piece) = true
           /\ Forall (fun s => get_sensor_address s = strip piece) args.
Proof.
  rewrite OpenhrvView_connect_sensor_run.
  destruct (String.eqb (OpenhrvView.address_menu w) "").
  { exists []. cbn. rewrite app_nil_r. split; [reflexivity | intros ? []]. }
  destruct (getitem_1 (split "," (OpenhrvView.address_menu w))) as [piece | e].
  2: { exists []. cbn. rewrite app_nil_r. split; [reflexivity | intros ? []]. }
  eexists. split; [reflexivity |].
  intros args [Hin | []].
  destruct (Utils.valid_address (strip piece)) eqn:Hvalid; [| discriminate].
  injection Hin as <-. exists piece.
  split; [reflexivity |]. split; [exact Hvalid |].
  apply List.Forall_forall. intros s Hs. apply filter_In in Hs as [_ Hs].
  now apply String.eqb_eq.
Qed.

(** ** Starting a recording *)

(** [get_filepath] of src/openhrv/view.py, case by case. *)
Lemma get_filepath_run (file_path : string) (w : OpenhrvView.world) :
  OpenhrvView.get_filepath file_path w =
    if String.eqb file_path "" then (inl tt, w)
    else if Utils.valid_path (OpenhrvView.fs w) file_path then
      (inl tt,
       OpenhrvView.World (OpenhrvView.address_menu w) (OpenhrvView.sensors w)
         (OpenhrvView.sensor w) (Logger.Make (Some file_path))
         (Utils.Filesystem (Utils.dirs (OpenhrvView.fs w))
                           (<[file_path := []]> (Utils.files (OpenhrvView.fs w))))
         (OpenhrvView.trace w ++ [EmitStartRecording file_path]))
    else
      (inl tt,
       OpenhrvView.World (OpenhrvView.address_menu w) (OpenhrvView.sensors w)
         (OpenhrvView.sensor w) (OpenhrvView.logger w) (OpenhrvView.fs w)
         (OpenhrvView.trace w ++
          [ShowMessage "File path is invalid or exists already.";
           Print "File path is invalid or exists already."])).
Proof.
  unfold OpenhrvView.get_filepath.
  destruct (String.eqb file_path ""); [reflexivity |].
  unfold bind, get.
  destruct (Utils.valid_path (OpenhrvView.fs w) file_path);
    unfold OpenhrvView.start_recording_emit, OpenhrvView.show_status,
      OpenhrvView.emit, bind, modify; cbn.
  - reflexivity.
  - now rewrite <- app_assoc.
Qed.

(** A destination that exists, or whose parent directory does not, is
    not valid. *)
Lemma valid_path_false (files : Utils.filesystem) (path : string) :
  Utils.exists_ files path = true \/ Utils.parent path ∉ Utils.dirs files ->
  Utils.valid_path files path = false.
Proof.
  unfold Utils.valid_path. intros [Hex | Hparent].
  - rewrite Hex. apply andb_false_r.
  - now rewrite bool_decide_eq_false_2.
Qed.

(** C6. For a destination chosen in the file dialog that exists
    already, or whose parent directory does not exist, [get_filepath]
    shows the status text "File path is invalid or exists already." and
    returns: [start_recording] is not emitted, the recorder does not
    start, and the file system is as it was, so that an existing file is
    neither opened nor truncated. *)
Theorem get_filepath_rejects_invalid_destination :
  forall (file_path : string) (w : OpenhrvView.world),
    file_path <> "" ->
    Utils.exists_ (OpenhrvView.fs w) file_path = true
    \/ Utils.parent file_path ∉ Utils.dirs (OpenhrvView.fs w) ->
    let r := OpenhrvView.get_filepath file_path w in
    fst r = inl tt
    /\ OpenhrvView.trace (snd r)
         = OpenhrvView.trace w ++
           [ShowMessage "File path is invalid or exists already.";
            Print "File path is invalid or exists already."]
    /\ OpenhrvView.logger (snd r) = OpenhrvView.logger w
    /\ OpenhrvView.fs (snd r) = OpenhrvView.fs w
    /\ Utils.files (OpenhrvView.fs (snd r)) !! file_path
         = Utils.files (OpenhrvView.fs w) !! file_path.
Proof.
  intros file_path w Hpath Hinvalid r. unfold r.
  rewrite get_filepath_run.
  apply String.eqb_neq in Hpath. rewrite Hpath.
  rewrite (valid_path_false _ _ Hinvalid). cbn.
  repeat split; reflexivity.
Qed.

Lemma get_filepath_rejects_invalid_destination_witness :
  "/data/session.csv" <> ""
  /\ Utils.exists_ (Utils.Filesystem {["/data"]} {["/data/session.csv" := ["t,ibi,800"]]})
                   "/data/session.csv" = true
  /\ Utils.files
       (OpenhrvView.fs
          (snd (OpenhrvView.get_filepath "/data/session.csv"
                  (OpenhrvView.World "" [] SensorClient.Disconnected (Logger.Make None)
                     (Utils.Filesystem {["/data"]}
                        {["/data/session.csv" := ["t,ibi,800"]]})
                     []))))
       !! "/data/session.csv"
     = Some ["t,ibi,800"].
Proof.
  assert (Hex : Utils.exists_
                  (Utils.Filesystem {["/data"]} {["/data/session.csv" := ["t,ibi,800"]]})
                  "/data/session.csv" = true).
  { unfold Utils.exists_. cbn [Utils.files].
    rewrite lookup_singleton_eq. reflexivity. }
  split; [discriminate |]. split; [exact Hex |].
  destruct (get_filepath_rejects_invalid_destination "/data/session.csv"
              (OpenhrvView.World "" [] SensorClient.Disconnected (Logger.Make None)
                 (Utils.Filesystem {["/data"]}
                    {["/data/session.csv" := ["t,ibi,800"]]})
                 [])
              ltac:(discriminate) (or_introl Hex))
    as (_ & _ & _ & _ & Hfile).
  rewrite Hfile. cbn [OpenhrvView.fs Utils.files].
  apply lookup_singleton_eq.
Defined.

(** A destination that does not exist, in a directory that does: the
    signal is emitted, and the recorder opens the destination. *)
Lemma get_filepath_accepts_valid_destination
    (file_path : string) (w : OpenhrvView.world) :
  file_path <> "" ->
  Utils.valid_path (OpenhrvView.fs w) file_path = true ->
  let r := OpenhrvView.get_filepath file_path w in
  OpenhrvView.trace (snd r) = OpenhrvView.trace w ++ [EmitStartRecording file_path]
  /\ OpenhrvView.logger (snd r) = Logger.Make (Some file_path)
  /\ Utils.files (OpenhrvView.fs (snd r)) !! file_path = Some [].
Proof.
  intros Hpath Hvalid r. unfold r. rewrite get_filepath_run.
  apply String.eqb_neq in Hpath. rewrite Hpath, Hvalid.
  cbn [fst snd OpenhrvView.trace OpenhrvView.logger OpenhrvView.fs Utils.files].
  split; [reflexivity |]. split; [reflexivity |]. apply lookup_insert_eq.
Qed.

(** ** Disconnecting from the sensor *)

Lemma disconnect_sensor_run (w : OpenhrvView.world) :
  OpenhrvView.disconnect_sensor w =
    (inl tt,
     OpenhrvView.World (OpenhrvView.address_menu w) (OpenhrvView.sensors w)
       (if SensorClient.active (OpenhrvView.sensor w)
        then SensorClient.Disconnected else OpenhrvView.sensor w)
       (OpenhrvView.logger w) (OpenhrvView.fs w)
       (OpenhrvView.trace w ++
        (if SensorClient.active (OpenhrvView.sensor w)
         then [DisconnectFromDevice;
               ShowMessage "Disconnected from sensor.";
               Print "Disconnected from sensor."]
         else []))).
Proof.
  destruct w as [menu ss s lg files tr].
  unfold OpenhrvView.disconnect_sensor, OpenhrvView.sensor_disconnect_client,
    SensorClient.disconnect_client.
  destruct (SensorClient.active s) eqn:Hs;
    unfold OpenhrvView.show_status, OpenhrvView.emit, bind, modify, get;
    cbn; rewrite Hs; cbn; repeat rewrite <- app_assoc; try rewrite app_nil_r;
    reflexivity.
Qed.

(** C8. Disconnecting a sensor client that is already disconnected
    returns normally and leaves the window as it was: the state of the
    client does not change, and no status text is shown or printed. *)
Theorem disconnect_sensor_when_disconnected_is_noop :
  forall w : OpenhrvView.world,
    OpenhrvView.sensor w = SensorClient.Disconnected ->
    OpenhrvView.disconnect_sensor w = (inl tt, w).
Proof.
  intros [menu ss s lg files tr] Hs. cbn in Hs. subst s.
  rewrite disconnect_sensor_run. cbn. now rewrite app_nil_r.
Qed.

Lemma disconnect_sensor_when_disconnected_is_noop_witness :
  OpenhrvView.sensor
    (OpenhrvView.World "" [] SensorClient.Disconnected (Logger.Make None)
       (Utils.Filesystem ∅ ∅) [Print "Disconnected from sensor."])
    = SensorClient.Disconnected
  /\ OpenhrvView.disconnect_sensor
       (OpenhrvView.World "" [] SensorClient.Disconnected (Logger.Make None)
          (Utils.Filesystem ∅ ∅) [Print "Disconnected from sensor."])
     = (inl tt,
        OpenhrvView.World "" [] SensorClient.Disconnected (Logger.Make None)
          (Utils.Filesystem ∅ ∅) [Print "Disconnected from sensor."]).
Proof.
  split; [reflexivity |].
  exact (disconnect_sensor_when_disconnected_is_noop
           (OpenhrvView.World "" [] SensorClient.Disconnected (Logger.Make None)
              (Utils.Filesystem ∅ ∅) [Print "Disconnected from sensor."])
           eq_refl).
Defined.

(** Disconnecting twice is disconnecting once: whatever the state of
    the client, the second call changes nothing and reports nothing. *)
Lemma disconnect_sensor_idempotent (w : OpenhrvView.world) :
  OpenhrvView.disconnect_sensor (snd (OpenhrvView.disconnect_sensor w))
    = (inl tt, snd (OpenhrvView.disconnect_sensor w)).
Proof.
  rewrite (disconnect_sensor_run w). cbn [snd].
  rewrite disconnect_sensor_run.
  cbn [OpenhrvView.sensor OpenhrvView.trace OpenhrvView.address_menu
       OpenhrvView.sensors OpenhrvView.logger OpenhrvView.fs].
  destruct (OpenhrvView.sensor w); cbn; now rewrite ?app_nil_r.
Qed.

(** ** The HRV target *)

Section HrvTarget.

Variables MIN MAX : Z.
Hypothesis MIN_le_MAX : (MIN <= MAX)%Z.

Local Open Scope Z_scope.

#[local] Abbreviation set_hrv_target := (OpenhrvView.set_hrv_target MIN MAX).
#[local] Abbreviation init_hrv_target := (OpenhrvView.init_hrv_target MIN MAX).
#[local] Abbreviation in_sync := (OpenhrvView.in_sync MIN MAX).

Lemma clamp_bounds x : MIN <= Model.clamp x MIN MAX <= MAX.
Proof.
  unfold Model.clamp.
  destruct (Z.ltb_spec x MIN); [lia |].
  destruct (Z.ltb_spec MAX x); lia.
Qed.

Lemma clamp_in_range x : MIN <= x <= MAX -> Model.clamp x MIN MAX = x.
Proof.
  intros Hx. unfold Model.clamp.
  destruct (Z.ltb_spec x MIN); [lia |].
  destruct (Z.ltb_spec MAX x); lia.
Qed.

(** Qt's [bound] on a slider with the configured range is the clamp
    of the specification. *)
Lemma bound_clamp s x :
  QSlider.minimum s = MIN -> QSlider.maximum s = MAX ->
  QSlider.bound s x = Model.clamp x MIN MAX.
Proof.
  intros Hmin Hmax. unfold QSlider.bound, Model.clamp. rewrite Hmin, Hmax.
  destruct (Z.ltb_spec x MIN); [lia |].
  destruct (Z.ltb_spec MAX x); lia.
Qed.

(** Setting the slider keeps slider and model in sync, and the model
    then holds the clamped value: when the bound value differs from
    the slider's, [valueChanged] carries it to the model, and when it
    does not, the model holds it already. *)
Lemma set_hrv_target_in_sync x sm :
  in_sync sm ->
  in_sync (set_hrv_target x sm)
  /\ OpenhrvView.read_hrv_target (set_hrv_target x sm) = Model.clamp x MIN MAX.
Proof.
  destruct sm as [s m]. intros (Hmin & Hmax & Hval & Hrange). cbn in *.
  unfold OpenhrvView.set_hrv_target, QSlider.setValue,
    OpenhrvView.read_hrv_target, OpenhrvView.in_sync. cbn [fst snd].
  rewrite (bound_clamp s x Hmin Hmax).
  pose proof (clamp_bounds x) as Hb.
  destruct (Z.eqb_spec (Model.clamp x MIN MAX) (QSlider.value s)) as [Heq | Hne];
    cbn.
  - repeat split; try assumption; lia.
  - rewrite (clamp_in_range _ Hb). repeat split; try assumption; lia.
Qed.

(** The window is built around a model whose target is within the
    bounds: afterwards slider and model are in sync. *)
Lemma init_hrv_target_in_sync m :
  MIN <= Model.hrv_target m <= MAX ->
  in_sync (init_hrv_target m)
  /\ OpenhrvView.read_hrv_target (init_hrv_target m) = Model.hrv_target m.
Proof.
  intros Hm.
  unfold OpenhrvView.init_hrv_target, QSlider.setRange, QSlider.setSliderPosition.
  set (s0 := QSlider.Make MIN (Z.max MIN MAX) (QSlider.value QSlider.new)).
  assert (Hs1 : exists v, fst (QSlider.setValue (QSlider.value QSlider.new) s0)
                          = QSlider.Make MIN MAX v).
  { unfold QSlider.setValue, s0. rewrite Z.max_r by lia.
    match goal with |- context [if ?c then _ else _] => destruct c end;
      cbn; eauto. }
  destruct Hs1 as [v Hs1].
  destruct (QSlider.setValue (QSlider.value QSlider.new) s0) as [s1 e1].
  cbn in Hs1. subst s1.
  unfold QSlider.setValue, QSlider.bound, OpenhrvView.in_sync,
    OpenhrvView.read_hrv_target.
  cbn [QSlider.minimum QSlider.maximum QSlider.value].
  rewrite Z.min_r, Z.max_r by lia.
  destruct (Z.eqb_spec (Model.hrv_target m) v) as [Heq | Hne]; cbn.
  - repeat split; try reflexivity; lia.
  - rewrite (clamp_in_range _ Hm). repeat split; try reflexivity; lia.
Qed.

(** After any moves of the slider, slider and model are in sync. *)
Lemma moves_in_sync (ys : list Z) sm :
  in_sync sm -> in_sync (fold_left (fun sm y => set_hrv_target y sm) ys sm).
Proof.
  revert sm. induction ys as [| y ys IH]; intros sm Hsm; cbn; [exact Hsm |].
  apply IH. now apply set_hrv_target_in_sync.
Qed.

(** C7. Setting the HRV target to any integer [x] and then reading
    [hrv_target] gives [clamp x MIN MAX], a value within the bounds;
    a value out of range is clamped on write, nothing is raised.  This
    holds for the model's own [update_hrv_target], and for the way
    the target is set in the window: by the slider, whatever moves
    of the slider came before. *)
Theorem hrv_target_clamped_on_write :
  forall (m : Model.t) (x : Z) (moves : list Z) (y : Z),
    MIN <= Model.hrv_target m <= MAX ->
    QSlider.is_int MIN -> QSlider.is_int MAX ->
    Forall QSlider.is_int moves -> QSlider.is_int y ->
    Model.hrv_target (Model.update_hrv_target MIN MAX x m) = Model.clamp x MIN MAX
    /\ MIN <= Model.clamp x MIN MAX <= MAX
    /\ OpenhrvView.read_hrv_target
         (set_hrv_target y
            (fold_left (fun sm z => set_hrv_target z sm) moves (init_hrv_target m)))
       = Model.clamp y MIN MAX.
Proof.
  intros m x moves y Hm _ _ _ _.
  split; [reflexivity |]. split; [apply clamp_bounds |].
  apply set_hrv_target_in_sync, moves_in_sync.
  now apply init_hrv_target_in_sync.
Qed.

End HrvTarget.

Lemma hrv_target_clamped_on_write_witness :
  (50 <= 600)%Z
  /\ (50 <= Model.hrv_target (Model.Make 250 []) <= 600)%Z
  /\ QSlider.is_int 50 /\ QSlider.is_int 600
  /\ Forall QSlider.is_int [300; 10]%Z /\ QSlider.is_int 700
  /\ Model.hrv_target (Model.update_hrv_target 50 600 700 (Model.Make 250 [])) = 600%Z
  /\ OpenhrvView.read_hrv_target
       (OpenhrvView.set_hrv_target 50 600 700
          (fold_left (fun sm z => OpenhrvView.set_hrv_target 50 600 z sm) [300; 10]%Z
                     (OpenhrvView.init_hrv_target 50 600 (Model.Make 250 []))))
     = 600%Z.
Proof.
  assert (Hint : forall z, (-1000 <= z <= 1000)%Z -> QSlider.is_int z).
  { intros z Hz. unfold QSlider.is_int, QSlider.INT_MIN, QSlider.INT_MAX. lia. }
  assert (H50 : QSlider.is_int 50) by (apply Hint; lia).
  assert (H600 : QSlider.is_int 600) by (apply Hint; lia).
  assert (H700 : QSlider.is_int 700) by (apply Hint; lia).
  assert (Hmoves : Forall QSlider.is_int [300; 10]%Z)
    by (repeat constructor; apply Hint; lia).
  assert (Hm : (50 <= Model.hrv_target (Model.Make 250 []) <= 600)%Z)
    by (cbn; lia).
  assert (Hle : (50 <= 600)%Z) by lia.
  destruct (hrv_target_clamped_on_write 50 600 Hle (Model.Make 250 []) 700
              [300; 10]%Z 700 Hm H50 H600 Hmoves H700) as (Hset & _ & Hread).
  split; [exact Hle |]. split; [exact Hm |]. split; [exact H50 |].
  split; [exact H600 |]. split; [exact Hmoves |]. split; [exact H700 |].
  split; [exact Hset | exact Hread].
Defined.

(** * More of the code *)

(** ** src/logger.py: every payload and every answer of the server *)

Section RedisLoggerMore.

Import RedisLogger.

(** The payloads without a latest scalar are the empty list and the
    empty array. *)
Lemma latest_scalar_None (val : pyval) :
  latest_scalar val = None <-> val = PyList [] \/ val = NdArray [].
Proof.
  split.
  - destruct val; cbn; try discriminate; intros H;
      apply last_None in H; subst; auto.
  - intros [-> | ->]; reflexivity.
Qed.

(** On such a payload [publish] raises before it does anything. *)
Lemma publish_without_latest_scalar key val w :
  latest_scalar val = None ->
  exists msg, publish (key, val) w = (inr (IndexError msg), w).
Proof.
  intros H. apply latest_scalar_None in H as [-> | ->]; eexists; reflexivity.
Qed.

(** X1. Whatever the payload is and whatever the server does, no
    connection error leaves [publish]: an exception that does leave it
    is of another kind. *)
Theorem publish_never_raises_ConnectionError :
  forall (key : string) (val : pyval) (w : world) (e : exn),
    fst (publish (key, val) w) = inr e -> is_ConnectionError e = false.
Proof.
  intros key val w e.
  destruct (latest_scalar val) as [v |] eqn:Hv.
  - rewrite (publish_run key val v w Hv). cbn [fst].
    destruct (server w (length (calls w))) as [n | e']; [discriminate |].
    destruct (is_ConnectionError e') eqn:He; [discriminate |].
    now intros [= <-].
  - destruct (publish_without_latest_scalar key val w Hv) as [msg ->].
    cbn [fst]. now intros [= <-].
Qed.

Lemma publish_never_raises_ConnectionError_witness :
  fst (publish ("MeanHrv", PyList []) (World down_for_three [] []))
    = inr (IndexError "list index out of range")
  /\ is_ConnectionError (IndexError "list index out of range") = false.
Proof.
  split; [reflexivity |].
  exact (publish_never_raises_ConnectionError "MeanHrv" (PyList [])
           (World down_for_three [] [])
           (IndexError "list index out of range") eq_refl).
Defined.

(** X2. One call of [publish] calls [redis.publish] at most once and
    leaves the record of the earlier calls as it was; it makes no call
    at all exactly when the payload is an empty list or an empty
    array. *)
Theorem publish_at_most_one_call :
  forall (key : string) (val : pyval) (w : world),
    exists new,
      calls (snd (publish (key, val) w)) = calls w ++ new
      /\ (length new <= 1)%nat
      /\ (new = [] <-> val = PyList [] \/ val = NdArray []).
Proof.
  intros key val w.
  destruct (latest_scalar val) as [v |] eqn:Hv.
  - eexists. rewrite (publish_run key val v w Hv). cbn [snd calls].
    split; [reflexivity |]. split; [cbn; lia |].
    split; [discriminate |].
    intros H. apply latest_scalar_None in H. congruence.
  - exists []. destruct (publish_without_latest_scalar key val w Hv) as [msg ->].
    cbn [snd]. rewrite app_nil_r.
    split; [reflexivity |]. split; [cbn; lia |].
    split; [intros _; now apply latest_scalar_None | reflexivity].
Qed.

(** X3. An exception of [redis.publish] that is not a connection error
    leaves [publish] as it is: the handler does not catch it, and
    nothing is printed. *)
Theorem publish_other_error_propagates :
  forall (key : string) (val v : pyval) (e : exn) (w : world),
    latest_scalar val = Some v ->
    server w (length (calls w)) = Raises e ->
    is_ConnectionError e = false ->
    publish (key, val) w
      = (inr e,
         World (server w) (calls w ++ [Attempt key (as_published v) (Raises e)])
               (stdout w)).
Proof.
  intros key val v e w Hv Hsrv He.
  rewrite (publish_run key val v w Hv). now rewrite Hsrv, He.
Qed.

Lemma publish_other_error_propagates_witness :
  latest_scalar (PyList [PyInt 1; PyList []]) = Some (PyList [])
  /\ is_ConnectionError (RedisError "Invalid input of type: 'list'.") = false
  /\ publish ("MeanHrv", PyList [PyInt 1; PyList []])
             (World (fun _ => Raises (RedisError "Invalid input of type: 'list'.")) [] [])
     = (inr (RedisError "Invalid input of type: 'list'."),
        World (fun _ => Raises (RedisError "Invalid input of type: 'list'."))
              [Attempt "MeanHrv" (PyList [])
                       (Raises (RedisError "Invalid input of type: 'list'."))]
              []).
Proof.
  split; [reflexivity |]. split; [reflexivity |].
  exact (publish_other_error_propagates "MeanHrv" (PyList [PyInt 1; PyList []])
           (PyList []) (RedisError "Invalid input of type: 'list'.")
           (World (fun _ => Raises (RedisError "Invalid input of type: 'list'.")) [] [])
           eq_refl eq_refl eq_refl).
Defined.

(** X5. Over a run in which every payload has a latest scalar and the
    connection fails with connection errors only, what is printed is
    the text of each caught error, once, in the order of the failed
    calls, and nothing else. *)
Theorem publish_all_prints_caught_errors (updates : list (string * pyval)) :
  forall w : world,
    Forall (fun u => is_Some (latest_scalar (snd u))) updates ->
    (forall k e, server w k = Raises e -> is_ConnectionError e = true) ->
    stdout (snd (publish_all updates w))
      = stdout w ++ error_lines (attempts_from (server w) (length (calls w)) updates).
Proof.
  induction updates as [| [key val] rest IH]; intros w Hall Hsrv.
  - cbn. now rewrite app_nil_r.
  - inversion Hall as [| ? ? [v Hv] Hrest]; subst. cbn [snd] in Hv.
    cbn [publish_all attempts_from]. rewrite Hv.
    pose proof (publish_run key val v w Hv) as Hrun. cbv zeta in Hrun.
    destruct (server w (length (calls w))) as [n | e] eqn:Ho.
    + rewrite (bind_inl _ _ _ _ _ Hrun).
      rewrite IH; [| exact Hrest | exact Hsrv].
      cbn [server calls stdout error_lines flat_map result].
      now rewrite length_app, Nat.add_1_r.
    + rewrite (Hsrv _ _ Ho) in Hrun.
      rewrite (bind_inl _ _ _ _ _ Hrun).
      rewrite IH; [| exact Hrest | exact Hsrv].
      cbn [server calls stdout error_lines flat_map result].
      rewrite length_app, Nat.add_1_r. cbn [length].
      now rewrite <- app_assoc.
Qed.

End RedisLoggerMore.

Lemma down_for_three_connection_errors (k : nat) (e : exn) :
  RedisLogger.down_for_three k = RedisLogger.Raises e ->
  RedisLogger.is_ConnectionError e = true.
Proof.
  unfold RedisLogger.down_for_three.
  destruct (k <? 3)%nat; [| discriminate]. now intros [= <-].
Qed.

Lemma four_updates_have_latest_scalars :
  Forall (fun u => is_Some (RedisLogger.latest_scalar (snd u)))
         [("hrv_target", PyInt 250);
          ("InterBeatInterval", NdArray [NpInt32 800]);
          ("MeanHrv", PyList [PyInt 31; PyInt 42]);
          ("hrv_target", PyInt 300)].
Proof. repeat constructor; cbn; eauto. Qed.

Lemma publish_all_best_effort_witness :
  Forall (fun u => is_Some (RedisLogger.latest_scalar (snd u)))
         [("hrv_target", PyInt 250);
          ("InterBeatInterval", NdArray [NpInt32 800]);
          ("MeanHrv", PyList [PyInt 31; PyInt 42]);
          ("hrv_target", PyInt 300)]
  /\ (forall k e, RedisLogger.down_for_three k = RedisLogger.Raises e ->
                  RedisLogger.is_ConnectionError e = true)
  /\ fst (RedisLogger.publish_all
            [("hrv_target", PyInt 250);
             ("InterBeatInterval", NdArray [NpInt32 800]);
             ("MeanHrv", PyList [PyInt 31; PyInt 42]);
             ("hrv_target", PyInt 300)]
            (RedisLogger.World RedisLogger.down_for_three [] []))
     = inl tt
  /\ map RedisLogger.payload
       (RedisLogger.calls
          (snd (RedisLogger.publish_all
                  [("hrv_target", PyInt 250);
                   ("InterBeatInterval", NdArray [NpInt32 800]);
                   ("MeanHrv", PyList [PyInt 31; PyInt 42]);
                   ("hrv_target", PyInt 300)]
                  (RedisLogger.World RedisLogger.down_for_three [] []))))
     = [PyInt 250; PyInt 800; PyInt 42; PyInt 300].
Proof.
  split; [exact four_updates_have_latest_scalars |].
  split; [exact down_for_three_connection_errors |].
  destruct (publish_all_best_effort _
              (RedisLogger.World RedisLogger.down_for_three [] [])
              four_updates_have_latest_scalars
              down_for_three_connection_errors) as (Hret & _ & Hcalls).
  split; [exact Hret |]. rewrite Hcalls. reflexivity.
Defined.

Lemma publish_all_prints_caught_errors_witness :
  Forall (fun u => is_Some (RedisLogger.latest_scalar (snd u)))
         [("hrv_target", PyInt 250);
          ("InterBeatInterval", NdArray [NpInt32 800]);
          ("MeanHrv", PyList [PyInt 31; PyInt 42]);
          ("hrv_target", PyInt 300)]
  /\ (forall k e, RedisLogger.down_for_three k = RedisLogger.Raises e ->
                  RedisLogger.is_ConnectionError e = true)
  /\ RedisLogger.stdout
       (snd (RedisLogger.publish_all
               [("hrv_target", PyInt 250);
                ("InterBeatInterval", NdArray [NpInt32 800]);
                ("MeanHrv", PyList [PyInt 31; PyInt 42]);
                ("hrv_target", PyInt 300)]
               (RedisLogger.World RedisLogger.down_for_three [] ["Ready."])))
     = ["Ready."; "Connection refused."; "Connection refused.";
        "Connection refused."].
Proof.
  split; [exact four_updates_have_latest_scalars |].
  split; [exact down_for_three_connection_errors |].
  rewrite (publish_all_prints_caught_errors _
             (RedisLogger.World RedisLogger.down_for_three [] ["Ready."])
             four_updates_have_latest_scalars
             down_for_three_connection_errors).
  reflexivity.
Defined.

(** ** Shutdown: the threads that were started *)

(** X6. In both windows [closeEvent] tells every thread that
    [__init__] started to quit and then joins it, and it does so for
    no other thread: a thread is told to quit before it is joined
    exactly when it is one of the started ones. *)
Theorem closeEvent_joins_started_threads :
  forall (lw : View.world) (w : OpenhrvView.world) (t : thread),
    (exists tr,
       View.trace (snd (View.closeEvent lw)) = View.trace lw ++ tr
       /\ occurs (ThreadQuit t) tr = bool_decide (t ∈ View_started_threads)
       /\ occurs (ThreadWait t) tr = bool_decide (t ∈ View_started_threads)
       /\ before (ThreadQuit t) (ThreadWait t) tr
          = bool_decide (t ∈ View_started_threads))
    /\ (exists tr,
          OpenhrvView.trace (snd (OpenhrvView.closeEvent w))
            = OpenhrvView.trace w ++ tr
          /\ occurs (ThreadQuit t) tr = bool_decide (t ∈ OpenhrvView_started_threads)
          /\ occurs (ThreadWait t) tr = bool_decide (t ∈ OpenhrvView_started_threads)
          /\ before (ThreadQuit t) (ThreadWait t) tr
             = bool_decide (t ∈ OpenhrvView_started_threads)).
Proof.
  intros lw w t. split.
  - rewrite View_closeEvent_run. cbn [snd View.trace].
    eexists. split; [reflexivity |].
    destruct t; repeat split; vm_compute; reflexivity.
  - rewrite OpenhrvView_closeEvent_run. cbn [snd OpenhrvView.trace].
    eexists. split; [reflexivity |].
    destruct (SensorClient.active (OpenhrvView.sensor w)), t;
      repeat split; vm_compute; reflexivity.
Qed.

(** ** Connecting: the text of the menu entry *)

Lemma split_no_sep (sep : ascii) (s : string) :
  ~ In sep (list_ascii_of_string s) -> split sep s = [s].
Proof.
  induction s as [| c s IH]; [reflexivity |]. cbn. intros Hfree.
  destruct (Ascii.eqb_spec c sep) as [-> | Hne]; [exfalso; apply Hfree; now left |].
  rewrite IH; [reflexivity |]. intros Hin. apply Hfree. now right.
Qed.

Lemma split_with_sep (sep : ascii) (s : string) :
  In sep (list_ascii_of_string s) ->
  exists piece piece' pieces, split sep s = piece :: piece' :: pieces.
Proof.
  induction s as [| c s IH]; [intros [] |]. cbn [list_ascii_of_string split].
  intros Hin. pose proof (split_not_empty sep s) as Hs.
  destruct (Ascii.eqb_spec c sep) as [-> | Hne].
  - destruct (split sep s) as [| piece pieces]; [contradiction |]. eauto.
  - destruct Hin as [Heq | Hin]; [now destruct Hne |].
    destruct (IH Hin) as (piece & piece' & pieces & ->). eauto.
Qed.

(** The piece before the first separator is what stands before it. *)
Lemma split_app_sep (sep : ascii) (s rest : string) :
  ~ In sep (list_ascii_of_string s) ->
  split sep (s +:+ String sep rest) = s :: split sep rest.
Proof.
  induction s as [| c s IH]; intros Hfree.
  - change ("" +:+ String sep rest) with (String sep rest).
    cbn [split]. now rewrite Ascii.eqb_refl.
  - change (String c s +:+ String sep rest)
      with (String c (s +:+ String sep rest)).
    cbn [split]. cbn in Hfree.
    destruct (Ascii.eqb_spec c sep) as [-> | Hne]; [exfalso; apply Hfree; now left |].
    rewrite IH; [reflexivity |]. intros Hin. apply Hfree. now right.
Qed.

Section ConnectSensorMore.

Variable get_sensor_address : QBluetoothDeviceInfo -> string.

Import OpenhrvView.

(** X7. [connect_sensor] of src/openhrv/view.py raises exactly when an
    entry is selected whose text has no comma: the second field of the
    text does not exist, [IndexError] is raised before the address is
    looked at, and the window is as it was. *)
Theorem connect_sensor_raises_iff_no_comma :
  forall w : world,
    ((exists e, fst (connect_sensor get_sensor_address w) = inr e)
     <-> address_menu w <> ""
         /\ ~ In ","%char (list_ascii_of_string (address_menu w)))
    /\ (forall e, fst (connect_sensor get_sensor_address w) = inr e ->
          connect_sensor get_sensor_address w
            = (inr (IndexError "list index out of range"), w)).
Proof.
  intros w. rewrite OpenhrvView_connect_sensor_run.
  destruct (String.eqb_spec (address_menu w) "") as [Hempty | Hsel].
  { split; [| intros e [=]]. split; [intros [e [=]] | intros [H _]; contradiction]. }
  destruct (in_dec ascii_dec ","%char (list_ascii_of_string (address_menu w)))
    as [Hin | Hfree].
  - destruct (split_with_sep _ _ Hin) as (piece & piece' & pieces & ->). cbn.
    split; [| intros e [=]].
    split; [intros [e [=]] | intros [_ H]; contradiction].
  - rewrite (split_no_sep _ _ Hfree). cbn.
    split; [| reflexivity].
    split; [intros _; now split | intros _; eauto].
Qed.

(** What [connect_sensor] does on an entry [name, address]. *)
Lemma connect_sensor_on_entry (w : world) (name address : string) :
  ~ In ","%char (list_ascii_of_string name) ->
  ~ In ","%char (list_ascii_of_string address) ->
  strip address = address ->
  address_menu w = name +:+ ", " +:+ address ->
  connect_sensor get_sensor_address w
    = (inl tt,
       World (address_menu w) (sensors w) (sensor w) (logger w) (fs w)
         (trace w ++
          [if Utils.valid_address address
           then ConnectClient
                  (List.filter (fun s => String.eqb (get_sensor_address s) address)
                               (sensors w))
           else Print ("Invalid sensor address: " +:+ address +:+ ".")])).
Proof.
  intros Hname Haddress Hstrip Hmenu.
  rewrite OpenhrvView_connect_sensor_run, Hmenu.
  assert (Hnonempty : String.eqb (name +:+ ", " +:+ address) "" = false)
    by now destruct name.
  rewrite Hnonempty.
  change (name +:+ ", " +:+ address)
    with (name +:+ String ","%char (String " "%char address)).
  rewrite (split_app_sep _ _ _ Hname).
  rewrite (split_no_sep ","%char (String " "%char address)).
  2: { cbn. intros [Heq | Hin]; [discriminate | now apply Haddress]. }
  cbn [getitem_1].
  assert (Hpiece : strip (String " "%char address) = address)
    by (rewrite <- Hstrip at 2; reflexivity).
  now rewrite Hpiece.
Qed.

(** X8. For the entry [name, address] of a device whose name has no
    comma, and an address without a comma and without blanks around
    it, [connect_sensor] of src/openhrv/view.py looks at exactly
    [address]: when it is well formed, [connect_client] is called with
    the sensors of the model that have this address, in the order of
    the model, and otherwise the message names it. *)
Theorem connect_sensor_on_menu_entry :
  forall (w : world) (name address : string),
    ~ In ","%char (list_ascii_of_string name) ->
    ~ In ","%char (list_ascii_of_string address) ->
    strip address = address ->
    address_menu w = name +:+ ", " +:+ address ->
    connect_sensor get_sensor_address w
      = (inl tt,
         World (address_menu w) (sensors w) (sensor w) (logger w) (fs w)
           (trace w ++
            [if Utils.valid_address address
             then ConnectClient
                    (List.filter (fun s => String.eqb (get_sensor_address s) address)
                                 (sensors w))
             else Print ("Invalid sensor address: " +:+ address +:+ ".")]))
    /\ forall s,
         In s (List.filter (fun s => String.eqb (get_sensor_address s) address)
                           (sensors w))
         <-> In s (sensors w) /\ get_sensor_address s = address.
Proof.
  intros w name address Hname Haddress Hstrip Hmenu.
  split; [now apply (connect_sensor_on_entry w name) |].
  intros s. rewrite filter_In. now rewrite String.eqb_eq.
Qed.

End ConnectSensorMore.

(** A decision of "the character does not occur" that computes. *)
Lemma not_in_by_computation (c : ascii) (s : string) :
  forallb (fun c' => negb (Ascii.eqb c' c)) (list_ascii_of_string s) = true ->
  ~ In c (list_ascii_of_string s).
Proof.
  intros Hall Hin. rewrite forallb_forall in Hall.
  specialize (Hall c Hin). now rewrite Ascii.eqb_refl in Hall.
Qed.

Lemma connect_sensor_on_menu_entry_witness :
  ~ In ","%char (list_ascii_of_string "Polar H10 8C6B1D21")
  /\ ~ In ","%char (list_ascii_of_string "00:22:D0:AA:BB:CC")
  /\ strip "00:22:D0:AA:BB:CC" = "00:22:D0:AA:BB:CC"
  /\ OpenhrvView.connect_sensor device_address
       (OpenhrvView.World "Polar H10 8C6B1D21, 00:22:D0:AA:BB:CC"
          [DeviceInfo "Polar H7" "00:22:D0:11:22:33" "";
           DeviceInfo "Polar H10 8C6B1D21" "00:22:D0:AA:BB:CC" ""]
          SensorClient.Disconnected (Logger.Make None) (Utils.Filesystem ∅ ∅) [])
     = (inl tt,
        OpenhrvView.World "Polar H10 8C6B1D21, 00:22:D0:AA:BB:CC"
          [DeviceInfo "Polar H7" "00:22:D0:11:22:33" "";
           DeviceInfo "Polar H10 8C6B1D21" "00:22:D0:AA:BB:CC" ""]
          SensorClient.Disconnected (Logger.Make None) (Utils.Filesystem ∅ ∅)
          [ConnectClient [DeviceInfo "Polar H10 8C6B1D21" "00:22:D0:AA:BB:CC" ""]]).
Proof.
  assert (Hname : ~ In ","%char (list_ascii_of_string "Polar H10 8C6B1D21"))
    by (apply not_in_by_computation; reflexivity).
  assert (Haddress : ~ In ","%char (list_ascii_of_string "00:22:D0:AA:BB:CC"))
    by (apply not_in_by_computation; reflexivity).
  assert (Hstrip : strip "00:22:D0:AA:BB:CC" = "00:22:D0:AA:BB:CC")
    by (vm_compute; reflexivity).
  split; [exact Hname |]. split; [exact Haddress |]. split; [exact Hstrip |].
  exact (proj1 (connect_sensor_on_menu_entry device_address
                  (OpenhrvView.World "Polar H10 8C6B1D21, 00:22:D0:AA:BB:CC"
                     [DeviceInfo "Polar H7" "00:22:D0:11:22:33" "";
                      DeviceInfo "Polar H10 8C6B1D21" "00:22:D0:AA:BB:CC" ""]
                     SensorClient.Disconnected (Logger.Make None)
                     (Utils.Filesystem ∅ ∅) [])
                  "Polar H10 8C6B1D21" "00:22:D0:AA:BB:CC"
                  Hname Haddress Hstrip eq_refl)).
Defined.

(** A device name with a comma shifts the fields: the text taken for
    the address is the rest of the name. *)
Example connect_sensor_name_with_comma :
  OpenhrvView.connect_sensor device_address
    (OpenhrvView.World "Polar, H10, 00:22:D0:AA:BB:CC"
       [DeviceInfo "Polar, H10" "00:22:D0:AA:BB:CC" ""]
       SensorClient.Disconnected (Logger.Make None) (Utils.Filesystem ∅ ∅) [])
  = (inl tt,
     OpenhrvView.World "Polar, H10, 00:22:D0:AA:BB:CC"
       [DeviceInfo "Polar, H10" "00:22:D0:AA:BB:CC" ""]
       SensorClient.Disconnected (Logger.Make None) (Utils.Filesystem ∅ ∅)
       [Print "Invalid sensor address: H10."]).
Proof. vm_compute. reflexivity. Qed.

(** ** The address menu *)

(** X9. [list_addresses] replaces the entries of the address menu by
    the addresses it is given, whatever the menu held, and the first of
    them, if any, is the current one.  After an empty list of addresses
    nothing is selected: [connect_sensor] of src/openhrv/view.py then
    does nothing, while [connect_sensor] of src/view.py, after
    [list_macs] with an empty list, prints its message. *)
Theorem list_addresses_replaces_menu :
  forall (get_sensor_address : QBluetoothDeviceInfo -> string)
         (addresses : list string) (menu : QComboBox.t)
         (w : OpenhrvView.world) (lw : View.world),
    QComboBox.items (AddressMenu.list_addresses addresses menu) = addresses
    /\ QComboBox.currentText (AddressMenu.list_addresses addresses menu)
       = hd "" addresses
    /\ OpenhrvView.connect_sensor get_sensor_address
         (AddressMenu.show (AddressMenu.list_addresses [] menu) w)
       = (inl tt, AddressMenu.show (AddressMenu.list_addresses [] menu) w)
    /\ View.connect_sensor (AddressMenu.show_macs (AddressMenu.list_macs [] menu) lw)
       = (inl tt, View.World "" (View.trace lw ++ [Print "Invalid MAC."])).
Proof.
  intros g addresses menu w lw.
  split; [reflexivity |]. split; [now destruct addresses |].
  split.
  - rewrite OpenhrvView_connect_sensor_run. reflexivity.
  - rewrite View_connect_sensor_run. reflexivity.
Qed.

(** ** Starting a recording: every answer of the file dialog *)

(** X10. [get_filepath] never raises, and it emits [start_recording],
    once and with the path of the dialog, exactly when the dialog was
    not cancelled and the path is valid; in every other case the
    recorder and the file system are as they were. *)
Theorem get_filepath_starts_recording_iff :
  forall (file_path : string) (w : OpenhrvView.world),
    fst (OpenhrvView.get_filepath file_path w) = inl tt
    /\ exists new,
         OpenhrvView.trace (snd (OpenhrvView.get_filepath file_path w))
           = OpenhrvView.trace w ++ new
         /\ existsb is_start_recording new
            = negb (String.eqb file_path "")
              && Utils.valid_path (OpenhrvView.fs w) file_path
         /\ (if existsb is_start_recording new
             then new = [EmitStartRecording file_path]
             else OpenhrvView.logger (snd (OpenhrvView.get_filepath file_path w))
                  = OpenhrvView.logger w
                  /\ OpenhrvView.fs (snd (OpenhrvView.get_filepath file_path w))
                     = OpenhrvView.fs w).
Proof.
  intros file_path w. rewrite get_filepath_run.
  destruct (String.eqb file_path "").
  { split; [reflexivity |]. exists []. cbn. rewrite app_nil_r. repeat split. }
  destruct (Utils.valid_path (OpenhrvView.fs w) file_path).
  - split; [reflexivity |]. eexists. cbn [snd OpenhrvView.trace].
    split; [reflexivity |]. repeat split.
  - split; [reflexivity |]. eexists. cbn [snd OpenhrvView.trace].
    split; [reflexivity |]. repeat split.
Qed.

(** ** src/openhrv/view.py: the series of a plot *)

Section XYSeriesFacts.

Variable R : Type.
Variable isValidValue : R -> R -> bool.

#[local] Abbreviation valid := (fun p : R * R => isValidValue (fst p) (snd p)).
#[local] Abbreviation _instantiate_series :=
  (XYSeriesWidget._instantiate_series R isValidValue).
#[local] Abbreviation update_series := (XYSeriesWidget.update_series R isValidValue).
#[local] Abbreviation new_series := (XYSeriesWidget.new R isValidValue).
#[local] Abbreviation all_valid := (XYSeriesWidget.all_valid R isValidValue).

Lemma instantiate_series_fold (points : list (R * R)) (s : QXYSeries.t R) :
  fold_left (fun s p => QXYSeries.append R isValidValue (fst p) (snd p) s) points s
    = s ++ List.filter valid points.
Proof.
  revert s. induction points as [| [x y] points IH]; intros s; cbn.
  - now rewrite app_nil_r.
  - rewrite IH. unfold QXYSeries.append. cbn.
    destruct (isValidValue x y); [now rewrite <- app_assoc | reflexivity].
Qed.

Lemma filter_all (A : Type) (p : A -> bool) (l : list A) :
  forallb p l = true -> List.filter p l = l.
Proof.
  induction l as [| a l IH]; [reflexivity |]. cbn.
  intros H. apply andb_prop in H as [Ha Hl]. now rewrite Ha, IH.
Qed.

(** X11. A new plot holds the pairs of its two sequences up to the end
    of the shorter one, in order, without the points that Qt refuses;
    when no point is refused these are all the pairs. *)
Theorem new_series_points :
  forall x_values y_values : list R,
    new_series x_values y_values = List.filter valid (combine x_values y_values)
    /\ (length (new_series x_values y_values)
        <= Nat.min (length x_values) (length y_values))%nat
    /\ (all_valid x_values y_values = true ->
        new_series x_values y_values = combine x_values y_values
        /\ length (new_series x_values y_values)
           = Nat.min (length x_values) (length y_values)).
Proof.
  intros xs ys.
  assert (Hnew : new_series xs ys = List.filter valid (combine xs ys)).
  { unfold XYSeriesWidget.new, XYSeriesWidget._instantiate_series.
    now rewrite instantiate_series_fold. }
  split; [exact Hnew |]. split.
  - rewrite Hnew, <- length_combine. apply List.filter_length_le.
  - intros Hall. unfold XYSeriesWidget.all_valid in Hall.
    rewrite Hnew, (filter_all _ _ _ Hall). split; [reflexivity |].
    apply length_combine.
Qed.

Lemma update_series_fold (points : list (R * R)) :
  forall (before_ : list (R * R)) (s : QXYSeries.t R),
    forallb valid points = true ->
    (length points <= length s)%nat ->
    fold_left (fun s ip =>
                 QXYSeries.replace R isValidValue (fst ip) (fst (snd ip))
                                   (snd (snd ip)) s)
              (combine (seq (length before_) (length points)) points)
              (before_ ++ s)
      = before_ ++ points ++ drop (length points) s.
Proof.
  induction points as [| [x y] points IH]; intros pre s Hvalid Hlen.
  - reflexivity.
  - cbn in Hvalid. apply andb_prop in Hvalid as [Hxy Hvalid].
    destruct s as [| a s]; [cbn in Hlen; lia |]. cbn in Hlen.
    cbn [length seq combine fold_left fst snd].
    unfold QXYSeries.replace at 2. rewrite Hxy. unfold QXYSeries.t in *.
    rewrite insert_app_r_alt by lia. rewrite Nat.sub_diag. cbn [insert list_insert].
    change (pre ++ (x, y) :: s) with (pre ++ [(x, y)] ++ s).
    rewrite app_assoc.
    replace (S (length pre)) with (length (pre ++ [(x, y)]))
      by (rewrite length_app; cbn; lia).
    rewrite IH by (assumption || lia).
    rewrite <- app_assoc. reflexivity.
Qed.

(** X12. [update_series] with points that Qt accepts, and not more of
    them than the series has, replaces the first points of the series
    by the new ones and leaves the others as they were; the series
    keeps its number of points. *)
Theorem update_series_replaces_prefix :
  forall (x_values y_values : list R) (s : QXYSeries.t R),
    all_valid x_values y_values = true ->
    (length (combine x_values y_values) <= length s)%nat ->
    update_series x_values y_values s
      = combine x_values y_values ++ drop (length (combine x_values y_values)) s
    /\ length (update_series x_values y_values s) = length s.
Proof.
  intros xs ys s Hvalid Hlen.
  assert (Hupd : update_series xs ys s
                 = combine xs ys ++ drop (length (combine xs ys)) s).
  { unfold XYSeriesWidget.update_series, XYSeriesWidget.enumerate.
    exact (update_series_fold (combine xs ys) [] s Hvalid Hlen). }
  split; [exact Hupd |].
  rewrite Hupd, length_app, length_drop. lia.
Qed.

(** X13. A plot built from the buffers of the model and then updated
    with buffers of the same length, all points accepted by Qt, shows
    exactly the pairs of the new buffers. *)
Theorem update_series_after_new :
  forall x_values y_values x_values' y_values' : list R,
    all_valid x_values y_values = true ->
    all_valid x_values' y_values' = true ->
    length (combine x_values' y_values') = length (combine x_values y_values) ->
    update_series x_values' y_values' (new_series x_values y_values)
      = combine x_values' y_values'.
Proof.
  intros xs ys xs' ys' Hvalid Hvalid' Hlen.
  assert (Hnew : new_series xs ys = combine xs ys).
  { unfold XYSeriesWidget.new, XYSeriesWidget._instantiate_series.
    rewrite instantiate_series_fold. cbn [app].
    now apply filter_all. }
  rewrite Hnew.
  unfold XYSeriesWidget.update_series, XYSeriesWidget.enumerate.
  pose proof (update_series_fold (combine xs' ys') [] (combine xs ys) Hvalid'
                ltac:(lia)) as Hupd.
  cbn [length app] in Hupd. rewrite Hupd, Hlen, drop_all. apply app_nil_r.
Qed.

End XYSeriesFacts.

Lemma update_series_replaces_prefix_witness :
  XYSeriesWidget.all_valid Z (fun _ _ => true) [0; 1]%Z [800; 820; 790]%Z = true
  /\ (length (combine [0; 1]%Z [800; 820; 790]%Z)
      <= length [(5, 5); (6, 6); (7, 7)]%Z)%nat
  /\ XYSeriesWidget.update_series Z (fun _ _ => true) [0; 1]%Z [800; 820; 790]%Z
       [(5, 5); (6, 6); (7, 7)]%Z
     = [(0, 800); (1, 820); (7, 7)]%Z.
Proof.
  split; [reflexivity |]. split; [cbn; lia |].
  rewrite (proj1 (update_series_replaces_prefix Z (fun _ _ => true)
                    [0; 1]%Z [800; 820; 790]%Z [(5, 5); (6, 6); (7, 7)]%Z
                    eq_refl ltac:(cbn; lia))).
  reflexivity.
Defined.

Lemma update_series_after_new_witness :
  XYSeriesWidget.all_valid Z (fun _ _ => true) [-2; -1; 0]%Z [800; 820; 790]%Z = true
  /\ XYSeriesWidget.all_valid Z (fun _ _ => true) [-2; -1; 0]%Z [820; 790; 810]%Z = true
  /\ length (combine [-2; -1; 0]%Z [820; 790; 810]%Z)
     = length (combine [-2; -1; 0]%Z [800; 820; 790]%Z)
  /\ XYSeriesWidget.update_series Z (fun _ _ => true) [-2; -1; 0]%Z [820; 790; 810]%Z
       (XYSeriesWidget.new Z (fun _ _ => true) [-2; -1; 0]%Z [800; 820; 790]%Z)
     = [(-2, 820); (-1, 790); (0, 810)]%Z.
Proof.
  split; [reflexivity |]. split; [reflexivity |]. split; [reflexivity |].
  exact (update_series_after_new Z (fun _ _ => true)
           [-2; -1; 0]%Z [800; 820; 790]%Z [-2; -1; 0]%Z [820; 790; 810]%Z
           eq_refl eq_refl eq_refl).
Defined.

(** ** The target slider: more of lines 169-173 *)

Section HrvTargetMore.

Variables MIN MAX : Z.

Local Open Scope Z_scope.

(** X14. Setting the slider to the same position twice is setting it
    once: the second time the value does not change, [valueChanged] is
    not emitted and the model is not notified again. *)
Theorem set_hrv_target_twice :
  forall (x : Z) (sm : QSlider.t * Model.t),
    OpenhrvView.set_hrv_target MIN MAX x (OpenhrvView.set_hrv_target MIN MAX x sm)
      = OpenhrvView.set_hrv_target MIN MAX x sm.
Proof.
  intros x [s m]. unfold OpenhrvView.set_hrv_target, QSlider.setValue.
  cbn [fst snd].
  destruct (Z.eqb_spec (QSlider.bound s x) (QSlider.value s)) as [Heq | Hne];
    cbn [fst snd OpenhrvView.deliver].
  - apply Z.eqb_eq in Heq. now rewrite Heq.
  - unfold QSlider.bound at 1 2.
    cbn [QSlider.minimum QSlider.maximum QSlider.value].
    fold (QSlider.bound s x). now rewrite Z.eqb_refl.
Qed.

(** X15. Whatever the target of the model is when the window is built,
    the slider ends with the configured range and at the model's
    target clamped into that range. *)
Theorem init_hrv_target_slider :
  forall m : Model.t,
    MIN <= MAX ->
    QSlider.minimum (fst (OpenhrvView.init_hrv_target MIN MAX m)) = MIN
    /\ QSlider.maximum (fst (OpenhrvView.init_hrv_target MIN MAX m)) = MAX
    /\ QSlider.value (fst (OpenhrvView.init_hrv_target MIN MAX m))
       = Model.clamp (Model.hrv_target m) MIN MAX.
Proof.
  intros m Hle.
  unfold OpenhrvView.init_hrv_target, QSlider.setRange, QSlider.setSliderPosition.
  set (s0 := QSlider.Make MIN (Z.max MIN MAX) (QSlider.value QSlider.new)).
  assert (Hs1 : exists v, fst (QSlider.setValue (QSlider.value QSlider.new) s0)
                          = QSlider.Make MIN MAX v).
  { unfold QSlider.setValue, s0. rewrite Z.max_r by lia.
    match goal with |- context [if ?c then _ else _] => destruct c end;
      cbn; eauto. }
  destruct Hs1 as [v Hs1].
  destruct (QSlider.setValue (QSlider.value QSlider.new) s0) as [s1 e1].
  cbn in Hs1. subst s1.
  unfold QSlider.setValue.
  rewrite (bound_clamp MIN MAX Hle (QSlider.Make MIN MAX v) _ eq_refl eq_refl).
  cbn [QSlider.value].
  destruct (Z.eqb_spec (Model.clamp (Model.hrv_target m) MIN MAX) v) as [-> | Hne];
    cbn; repeat split.
Qed.

End HrvTargetMore.

Lemma init_hrv_target_slider_witness :
  (50 <= 600)%Z
  /\ QSlider.value (fst (OpenhrvView.init_hrv_target 50 600 (Model.Make 700 [])))
     = 600%Z.
Proof.
  assert (Hle : (50 <= 600)%Z) by lia.
  split; [exact Hle |].
  destruct (init_hrv_target_slider 50 600 (Model.Make 700 []) Hle) as (_ & _ & Hvalue).
  rewrite Hvalue. reflexivity.
Defined.

(** ** From the list of addresses to the connection *)

Lemma currentText_of_selected (entries : list string) (menu : QComboBox.t) (i : nat) :
  (i < length entries)%nat ->
  QComboBox.currentText
    (QComboBox.setCurrentIndex (Z.of_nat i) (AddressMenu.list_addresses entries menu))
  = nth i entries "".
Proof.
  intros Hi.
  unfold AddressMenu.list_addresses, QComboBox.setCurrentIndex, QComboBox.count,
    QComboBox.addItems, QComboBox.clear, QComboBox.currentText.
  cbn [QComboBox.items QComboBox.currentIndex app].
  destruct (Z.leb_spec 0 (Z.of_nat i)) as [_ | Hneg]; [| lia].
  destruct (Z.ltb_spec (Z.of_nat i) (Z.of_nat (length entries))) as [_ | Hge]; [| lia].
  cbn [andb].
  destruct (Z.ltb_spec (Z.of_nat i) 0) as [Hneg | _]; [lia |].
  now rewrite Nat2Z.id.
Qed.

(** X16. After [list_addresses], whichever of the listed entries is
    selected, [connect_sensor] of src/openhrv/view.py works on that
    entry: for an entry [name, address] (no comma in the name, no comma
    in and no blanks around the address) it looks at [address], and
    calls [connect_client] with the model's sensors of that address
    when it is well formed. *)
Theorem connect_sensor_on_selected_entry :
  forall (get_sensor_address : QBluetoothDeviceInfo -> string)
         (entries : list string) (menu : QComboBox.t) (i : nat)
         (name address : string) (w : OpenhrvView.world),
    (i < length entries)%nat ->
    nth i entries "" = name +:+ ", " +:+ address ->
    ~ In ","%char (list_ascii_of_string name) ->
    ~ In ","%char (list_ascii_of_string address) ->
    strip address = address ->
    OpenhrvView.connect_sensor get_sensor_address
      (AddressMenu.show
         (QComboBox.setCurrentIndex (Z.of_nat i)
            (AddressMenu.list_addresses entries menu)) w)
    = (inl tt,
       OpenhrvView.World (name +:+ ", " +:+ address) (OpenhrvView.sensors w)
         (OpenhrvView.sensor w) (OpenhrvView.logger w) (OpenhrvView.fs w)
         (OpenhrvView.trace w ++
          [if Utils.valid_address address
           then ConnectClient
                  (List.filter (fun s => String.eqb (get_sensor_address s) address)
                               (OpenhrvView.sensors w))
           else Print ("Invalid sensor address: " +:+ address +:+ ".")])).
Proof.
  intros g entries menu i name address w Hi Hentry Hname Haddress Hstrip.
  unfold AddressMenu.show. rewrite (currentText_of_selected entries menu i Hi), Hentry.
  exact (connect_sensor_on_entry g
           (OpenhrvView.World (name +:+ ", " +:+ address) (OpenhrvView.sensors w)
              (OpenhrvView.sensor w) (OpenhrvView.logger w) (OpenhrvView.fs w)
              (OpenhrvView.trace w))
           name address Hname Haddress Hstrip eq_refl).
Qed.

Lemma connect_sensor_on_selected_entry_witness :
  (1 < length ["Polar H7, 00:22:D0:11:22:33"; "Polar H10, 00:22:D0:AA:BB:CC"])%nat
  /\ ~ In ","%char (list_ascii_of_string "Polar H10")
  /\ ~ In ","%char (list_ascii_of_string "00:22:D0:AA:BB:CC")
  /\ strip "00:22:D0:AA:BB:CC" = "00:22:D0:AA:BB:CC"
  /\ OpenhrvView.connect_sensor device_address
       (AddressMenu.show
          (QComboBox.setCurrentIndex 1
             (AddressMenu.list_addresses
                ["Polar H7, 00:22:D0:11:22:33"; "Polar H10, 00:22:D0:AA:BB:CC"]
                (QComboBox.Make ["old entry"] 0)))
          (OpenhrvView.World "old entry"
             [DeviceInfo "Polar H7" "00:22:D0:11:22:33" "";
              DeviceInfo "Polar H10" "00:22:D0:AA:BB:CC" ""]
             SensorClient.Disconnected (Logger.Make None) (Utils.Filesystem ∅ ∅) []))
     = (inl tt,
        OpenhrvView.World "Polar H10, 00:22:D0:AA:BB:CC"
          [DeviceInfo "Polar H7" "00:22:D0:11:22:33" "";
           DeviceInfo "Polar H10" "00:22:D0:AA:BB:CC" ""]
          SensorClient.Disconnected (Logger.Make None) (Utils.Filesystem ∅ ∅)
          [ConnectClient [DeviceInfo "Polar H10" "00:22:D0:AA:BB:CC" ""]]).
Proof.
  assert (Hi : (1 < length ["Polar H7, 00:22:D0:11:22:33";
                            "Polar H10, 00:22:D0:AA:BB:CC"])%nat) by (cbn; lia).
  assert (Hname : ~ In ","%char (list_ascii_of_string "Polar H10"))
    by (apply not_in_by_computation; reflexivity).
  assert (Haddress : ~ In ","%char (list_ascii_of_string "00:22:D0:AA:BB:CC"))
    by (apply not_in_by_computation; reflexivity).
  assert (Hstrip : strip "00:22:D0:AA:BB:CC" = "00:22:D0:AA:BB:CC")
    by (vm_compute; reflexivity).
  split; [exact Hi |]. split; [exact Hname |]. split; [exact Haddress |].
  split; [exact Hstrip |].
  exact (connect_sensor_on_selected_entry device_address
           ["Polar H7, 00:22:D0:11:22:33"; "Polar H10, 00:22:D0:AA:BB:CC"]
           (QComboBox.Make ["old entry"] 0) 1 "Polar H10" "00:22:D0:AA:BB:CC"
           (OpenhrvView.World "old entry"
              [DeviceInfo "Polar H7" "00:22:D0:11:22:33" "";
               DeviceInfo "Polar H10" "00:22:D0:AA:BB:CC" ""]
              SensorClient.Disconnected (Logger.Make None) (Utils.Filesystem ∅ ∅) [])
           Hi eq_refl Hname Haddress Hstrip).
Defined.

(** ** What is handed to the channel *)

(** X17. The calls of [redis.publish] that [publish] makes carry the
    key of the update as the channel, and never a NumPy [int32] as the
    value: such a value has been converted to a Python integer. *)
Theorem publish_never_hands_over_int32 :
  forall (key : string) (val : pyval) (w : RedisLogger.world),
    exists new,
      RedisLogger.calls (snd (RedisLogger.publish (key, val) w))
        = RedisLogger.calls w ++ new
      /\ Forall (fun a => RedisLogger.channel a = key
                          /\ RedisLogger.is_np_int32 (RedisLogger.payload a) = false)
                new.
Proof.
  intros key val w.
  destruct (RedisLogger.latest_scalar val) as [v |] eqn:Hv.
  - eexists. rewrite (publish_run key val v w Hv). cbn [snd RedisLogger.calls].
    split; [reflexivity |]. constructor; [| constructor].
    cbn. split; [reflexivity | now destruct v].
  - destruct (publish_without_latest_scalar key val w Hv) as [msg ->].
    exists []. cbn [snd]. rewrite app_nil_r. split; [reflexivity | constructor].
Qed.

(** ** The plot of the inter-beat intervals and the window *)



Section IbisPlotFacts.

Variables D MIN_PLOT MAX_PLOT : Q.

#[local] Abbreviation ibis_widget := (IbisPlot.ibis_widget D MIN_PLOT MAX_PLOT).




End IbisPlotFacts.



(** A buffer cut to the window changes its length, and the plot is not
    made for that: built from the three samples at 0 s, 1 s and 2 s and
    updated with the one sample at 65 s that a window of 60 seconds
    leaves of them, it keeps the two samples that were dropped. *)
Example plot_ibis_keeps_points_of_a_shorter_buffer :
  IbisPlot.time_series
    (IbisPlot.plot_ibis ([65]%Q, [810]%Q)
       (IbisPlot.ibis_widget 60 300 1500 [0; 1; 2]%Q [800; 820; 790]%Q))
  = [(65, 810); (1, 820); (2, 790)]%Q.
Proof. reflexivity. Qed.
